(** * flowfunc: a shallow embedding of the run coordinator, the mapspec
    synthesizers, the step option resolvers and the input resolver.

    Python values, dicts and exceptions are modelled explicitly: a Python
    [dict] is an association list that keeps insertion order (assignment to
    an existing key keeps its position), and every function that can raise
    returns an [outcome]. *)

From Stdlib Require Import String List Bool Arith Lia ZArith Ascii.
Import ListNotations.
Open Scope string_scope.
Set Warnings "-register-all".

(** ** Exceptions and the error monad *)

(** A raised Python exception: its class name and [str(e)]. *)
Record py_exc := PyExc { exc_type : string; exc_msg : string }.

Inductive outcome (A : Type) : Type :=
| Ok (a : A)
| Raise (e : py_exc).
Arguments Ok {A} a.
Arguments Raise {A} e.

Definition bind {A B} (m : outcome A) (f : A -> outcome B) : outcome B :=
  match m with
  | Ok a => f a
  | Raise e => Raise e
  end.

Notation "x <- m ;; k" := (bind m (fun x => k))
  (at level 61, m at next level, right associativity).

Definition is_ok {A} (m : outcome A) : bool :=
  match m with Ok _ => true | Raise _ => false end.

(** ** Python values *)

Inductive pyval : Type :=
| PNone
| PBool (b : bool)
| PInt (z : Z)
| PStr (s : string)
| PList (l : list pyval)
| PDict (kvs : list (string * pyval)).

(** Python truthiness of an optional string ([None] and [""] are falsy). *)
Definition truthy_str (o : option string) : bool :=
  match o with
  | Some s => negb (String.eqb s "")
  | None => false
  end.

(** ** Python dicts with string keys, in insertion order *)

Module PyDict.
Section Dict.
Context {V : Type}.

Definition t := list (string * V).

Fixpoint get (d : t) (k : string) : option V :=
  match d with
  | [] => None
  | (k', v) :: d' => if String.eqb k k' then Some v else get d' k
  end.

(** [d[k] = v]: overwrite in place, or append a fresh key. *)
Fixpoint set (d : t) (k : string) (v : V) : t :=
  match d with
  | [] => [(k, v)]
  | (k', v') :: d' =>
      if String.eqb k k' then (k', v) :: d' else (k', v') :: set d' k v
  end.

Fixpoint del (d : t) (k : string) : t :=
  match d with
  | [] => []
  | (k', v') :: d' => if String.eqb k k' then del d' k else (k', v') :: del d' k
  end.

Definition keys (d : t) : list string := map fst d.
Definition values (d : t) : list V := map snd d.

Definition mem (k : string) (d : t) : bool := existsb (String.eqb k) (keys d).

(** [d.update(e)] and [{**d, **e}]. *)
Definition update (d e : t) : t :=
  fold_left (fun acc kv => set acc (fst kv) (snd kv)) e d.

(** [{k: v for k, v in d.items() if p k}] *)
Definition filter_keys (p : string -> bool) (d : t) : t :=
  filter (fun kv => p (fst kv)) d.

End Dict.
Arguments t V : clear implicits.
End PyDict.

Definition str_mem (k : string) (l : list string) : bool := existsb (String.eqb k) l.

(** ** Workflow definition schema (workflow_definition/schema.py) *)

Inductive MapMode := BROADCAST | ZIP | AGGREGATE.

Definition MapMode_eqb (a b : MapMode) : bool :=
  match a, b with
  | BROADCAST, BROADCAST | ZIP, ZIP | AGGREGATE, AGGREGATE => true
  | _, _ => false
  end.

(** Attribute access [MapMode.<name>] on the enum class: the members are
    BROADCAST, ZIP and AGGREGATE; any other name raises AttributeError. *)
Definition MapMode_attr (name : string) : outcome MapMode :=
  if String.eqb name "BROADCAST" then Ok BROADCAST
  else if String.eqb name "ZIP" then Ok ZIP
  else if String.eqb name "AGGREGATE" then Ok AGGREGATE
  else Raise (PyExc "AttributeError" name).

(** [Resources]: the model_dump of the optional fields is what the
    resolvers use, so the advanced options carry Python values. *)
Record Resources := mkResources {
  cpus : option Z;
  memory : option string;
  advanced_options : option (PyDict.t pyval)
}.

(** [StepOptions.output_name : str | list[str] | None] *)
Inductive out_name := OutStr (s : string) | OutList (l : list string).

Record StepOptions := mkStepOptions {
  output_name : option out_name;
  renames : option (PyDict.t string);
  defaults : option (PyDict.t pyval);
  mapspec : option string;
  scope : option string;
  map_mode : option MapMode;         (* default MapMode.BROADCAST *)
  bound : option (PyDict.t pyval);
  profile : option bool;
  debug : option bool;
  cache : option bool;
  opt_advanced_options : option (PyDict.t pyval)   (* StepOptions.advanced_options *)
  (* [func : Callable | None] is left out: no YAML value sets it, and
     [resolve_function_path] overwrites [options["func"]] in any case. *)
}.

Definition default_StepOptions : StepOptions :=
  mkStepOptions None None None None None (Some BROADCAST) None None None None None.

Definition set_mapspec (o : StepOptions) (m : string) : StepOptions :=
  mkStepOptions o.(output_name) o.(renames) o.(defaults) (Some m) o.(scope) o.(map_mode)
    o.(bound) o.(profile) o.(debug) o.(cache) o.(opt_advanced_options).

Record InputItem := mkInputItem { item_value : pyval }.

(** A value of [StepDefinition.inputs : dict[str, InputItem | str | int | float]]. *)
Inductive step_input :=
| SIItem (i : InputItem)
| SIStr (s : string)
| SIInt (z : Z)
| SIFloat (repr : string).

Record StepDefinition := mkStep {
  step_name : string;
  step_func : option string;
  step_inputs : option (PyDict.t step_input);
  step_parameters : option (PyDict.t pyval);
  step_output_name : option string;
  step_resources : option Resources;
  step_options : option StepOptions   (* default StepOptions() *)
}.

(** ** Mapspec synthesis, shared pieces *)

(** [list(string.ascii_lowercase[8:])] *)
Definition indices : list string :=
  ["i"; "j"; "k"; "l"; "m"; "n"; "o"; "p"; "q"; "r"; "s"; "t"; "u"; "v";
   "w"; "x"; "y"; "z"].

Definition index_expr (name idx : string) : string := name ++ "[" ++ idx ++ "]".

(** The broadcast loop
<<
    for i, source_name in enumerate(iterable_inputs.values()):
        if i >= len(indices): raise PipelineBuildError(msg)
        index = indices[i]
        input_parts.append(f"{source_name}[{index}]")
        output_indices.append(index)
>>
    returning [(input_parts, output_indices)]; [i] is the enumerate counter. *)
Fixpoint broadcast_loop (msg : string) (i : nat) (srcs : list string)
  : outcome (list string * list string) :=
  match srcs with
  | [] => Ok ([], [])
  | source_name :: rest =>
      if Nat.leb (length indices) i then Raise (PyExc "PipelineBuildError" msg)
      else
        let index := nth i indices "" in
        r <- broadcast_loop msg (S i) rest ;;
        Ok (index_expr source_name index :: fst r, index :: snd r)
  end.

(** Iterating [output_names], which is [None] when [output_name] is unset. *)
Definition iter_names (o : option (list string)) : outcome (list string) :=
  match o with
  | Some l => Ok l
  | None => Raise (PyExc "TypeError" "'NoneType' object is not iterable")
  end.

(** ** composition/step.py: [resolve_mapspec] *)

Definition get_step_options (step : StepDefinition) : outcome StepOptions :=
  match step.(step_options) with
  | Some o => Ok o
  | None => Raise (PyExc "AttributeError" "'NoneType' object has no attribute 'map_mode'")
  end.

Definition resolve_mapspec (options : StepOptions) (step : StepDefinition)
  : outcome StepOptions :=
  if truthy_str options.(mapspec) then Ok options else
  sopts <- get_step_options step ;;
  let map_mode := sopts.(map_mode) in
  none_member <- MapMode_attr "NONE" ;;
  if match map_mode with Some m => MapMode_eqb m none_member | None => false end
  then Ok options else
  let iterable_inputs := match options.(renames) with Some r => r | None => [] end in
  let constant_inputs0 :=
    PyDict.keys (match options.(defaults) with Some d => d | None => [] end) in
  let constant_inputs :=
    filter (fun c => negb (PyDict.mem c iterable_inputs)) constant_inputs0 in
  match iterable_inputs with
  | [] => Ok options
  | _ =>
    let output_names :=
      match options.(output_name) with
      | Some (OutStr s) => Some [s]
      | Some (OutList l) => Some l
      | None => None
      end in
    r <- match map_mode with
      | Some BROADCAST =>
          parts <- broadcast_loop
                     ("Step '" ++ step.(step_name) ++
                      "': Too many iterable inputs for 'broadcast' mode (max 18).")
                     0 (PyDict.values iterable_inputs) ;;
          let output_index_str := String.concat "," (snd parts) in
          names <- iter_names output_names ;;
          Ok (fst parts, String.concat ", "
                (map (fun n => index_expr n output_index_str) names))
      | Some ZIP =>
          let index := nth 0 indices "" in
          let input_parts := map (fun s => index_expr s index)
                                 (PyDict.values iterable_inputs) in
          names <- iter_names output_names ;;
          Ok (input_parts, String.concat ", " (map (fun n => index_expr n index) names))
      | Some AGGREGATE =>
          if Nat.ltb 1 (length iterable_inputs) then
            Raise (PyExc "PipelineBuildError"
                     ("Step '" ++ step.(step_name) ++
                      "': 'aggregate' mode only supports one iterable input."))
          else
          let index := nth 0 indices "" in
          let input_parts := map (fun s => index_expr s index)
                                 (PyDict.values iterable_inputs) in
          names <- iter_names output_names ;;
          Ok (input_parts, String.concat ", " names)
      | None => Raise (PyExc "ValueError" "Unhandled MapMode: None. This should not happen.")
      end ;;
    let inputs_str := String.concat ", " (fst r ++ constant_inputs) in
    Ok (set_mapspec options (inputs_str ++ " -> " ++ snd r))
  end.

(** ** workflow_definition/schema.py: [StepDefinition._get_pipefunc_mapspec] *)

(** [input_value.split(".", 1)[1]] for a string that contains a dot. *)
Fixpoint after_first_dot (s : string) : string :=
  match s with
  | EmptyString => EmptyString
  | String c rest => if Ascii.eqb c "." then rest else after_first_dot rest
  end.

Fixpoint contains_dot (s : string) : bool :=
  match s with
  | EmptyString => false
  | String c rest => Ascii.eqb c "." || contains_dot rest
  end.

(** [isinstance(input_value, str) and (input_value.startswith("$global.")
    or "." in input_value)]: the source name of an iterable input. *)
Definition iterable_source (v : step_input) : option string :=
  match v with
  | SIStr s =>
      if String.prefix "$global." s || contains_dot s
      then Some (after_first_dot s) else None
  | _ => None
  end.

(** The classification loop: [(iterable_inputs, constant_inputs)]. *)
Fixpoint classify_inputs (ins : PyDict.t step_input) (it : PyDict.t string)
    (consts : list string) : PyDict.t string * list string :=
  match ins with
  | [] => (it, consts)
  | (input_name, input_value) :: rest =>
      match iterable_source input_value with
      | Some source_name => classify_inputs rest (PyDict.set it input_name source_name) consts
      | None => classify_inputs rest it (consts ++ [input_name])
      end
  end.

(** [if self.options and self.options.mapspec: return self.options.mapspec] *)
Definition explicit_mapspec (self : StepDefinition) : option string :=
  match self.(step_options) with
  | Some o => if truthy_str o.(mapspec) then o.(mapspec) else None
  | None => None
  end.

Definition get_pipefunc_mapspec (self : StepDefinition) : outcome (option string) :=
  match explicit_mapspec self with Some m => Ok (Some m) | None =>
  match self.(step_inputs) with
  | None | Some [] => Ok None
  | Some ins =>
  if negb (truthy_str self.(step_output_name)) then Ok None else
  let map_mode :=
    match self.(step_options) with Some o => o.(map_mode) | None => Some BROADCAST end in
  let cls := classify_inputs ins [] [] in
  let iterable_inputs := fst cls in
  let constant_inputs := snd cls in
  match iterable_inputs with
  | [] => Ok None
  | _ =>
    let output_names := match self.(step_output_name) with
                        | Some s => [s] | None => [] end in
    r <- match map_mode with
      | Some BROADCAST =>
          parts <- broadcast_loop "Too many iterable inputs for `broadcast`."
                     0 (PyDict.values iterable_inputs) ;;
          let output_index_str := String.concat "," (snd parts) in
          Ok (fst parts, String.concat ", "
                (map (fun n => index_expr n output_index_str) output_names))
      | Some ZIP =>
          let index := nth 0 indices "" in
          Ok (map (fun s => index_expr s index) (PyDict.values iterable_inputs),
              String.concat ", " (map (fun n => index_expr n index) output_names))
      | Some AGGREGATE =>
          let index := nth 0 indices "" in
          Ok (map (fun s => index_expr s index) (PyDict.values iterable_inputs),
              String.concat ", " output_names)
      | None => Raise (PyExc "ValueError" "Unhandled MapMode: None. This should not happen.")
      end ;;
    let inputs_str := String.concat ", " (fst r ++ constant_inputs) in
    Ok (Some (inputs_str ++ " -> " ++ snd r))
  end
  end
  end.

(** ** Resources validation (schema.py [Resources]) *)

(** A class-body attribute as pydantic's decorator collection sees it:
    [@field_validator(field)] turns a function into a [DescriptorProxy],
    [@classmethod] wraps whatever it is applied to.  Pydantic registers a
    field validator only for class attributes that are themselves a
    [DescriptorProxy] ([DecoratorInfos.build] scans [vars(cls)] with
    [isinstance(value, PydanticDescriptorProxy)]). *)
Inductive class_attr :=
| DescriptorProxy (field : string) (validator : pyval -> outcome pyval)
| ClassMethod (wrapped : class_attr)
| PlainAttr.

Definition field_validator (field : string) (f : pyval -> outcome pyval) : class_attr :=
  DescriptorProxy field f.

Definition classmethod (a : class_attr) : class_attr := ClassMethod a.

Fixpoint collect_field_validators (ns : list (string * class_attr)) (field : string)
  : list (pyval -> outcome pyval) :=
  match ns with
  | [] => []
  | (_, DescriptorProxy f v) :: rest =>
      if String.eqb f field then v :: collect_field_validators rest field
      else collect_field_validators rest field
  | _ :: rest => collect_field_validators rest field
  end.

Fixpoint reserved_key_check (ks : list string) : outcome unit :=
  match ks with
  | [] => Ok tt
  | key :: rest =>
      if str_mem key ["cpus"; "memory"] then
        Raise (PyExc "ValueError"
                 ("Key '" ++ key ++ "' is a reserved field and cannot be used in 'advanced_options'." ++
                  "Please set '" ++ key ++ "' at the top level of resources."))
      else reserved_key_check rest
  end.

Definition prevent_reserved_keys_in_advanced_options (v : pyval) : outcome pyval :=
  match v with
  | PDict d => _ <- reserved_key_check (PyDict.keys d) ;; Ok v
  | _ => Ok v
  end.

(** The body of [class Resources]:
<<
    @classmethod
    @field_validator("advanced_options")
    def prevent_reserved_keys_in_advanced_options(cls, v): ...
>> *)
Definition Resources_namespace : list (string * class_attr) :=
  [("prevent_reserved_keys_in_advanced_options",
    classmethod (field_validator "advanced_options"
                   prevent_reserved_keys_in_advanced_options))].

Definition adv_to_pyval (a : option (PyDict.t pyval)) : pyval :=
  match a with Some d => PDict d | None => PNone end.

Definition pyval_to_adv (v : pyval) : option (PyDict.t pyval) :=
  match v with PDict d => Some d | _ => None end.

Fixpoint run_validators (vs : list (pyval -> outcome pyval)) (v : pyval) : outcome pyval :=
  match vs with
  | [] => Ok v
  | f :: rest => v' <- f v ;; run_validators rest v'
  end.

(** Constructing [Resources(...)]: the registered validators of the
    [advanced_options] field run on its value. *)
Definition validate_Resources (r : Resources) : outcome Resources :=
  v <- run_validators (collect_field_validators Resources_namespace "advanced_options")
         (adv_to_pyval r.(advanced_options)) ;;
  Ok (mkResources r.(cpus) r.(memory) (pyval_to_adv v)).

(** ** Resource merging (pipeline/resolvers.py [resolve_resources],
    schema.py [StepDefinition._get_pipefunc_resources]) *)

(** [model_dump(exclude_none=True)]: the non-[None] fields in declaration
    order. *)
Definition dump_resources (r : Resources) : PyDict.t pyval :=
  ((match r.(cpus) with Some c => [("cpus", PInt c)] | None => [] end) ++
   (match r.(memory) with Some m => [("memory", PStr m)] | None => [] end) ++
   (match r.(advanced_options) with Some a => [("advanced_options", PDict a)] | None => [] end))%list.

Definition dump_opt_resources (r : option Resources) : PyDict.t pyval :=
  match r with Some r => dump_resources r | None => [] end.

(** [dict.pop(key, {}) or {}] on the merged dict, for the advanced options. *)
Definition pop_advanced (merged : PyDict.t pyval) : PyDict.t pyval :=
  match PyDict.get merged "advanced_options" with
  | Some (PDict a) => a
  | _ => []
  end.

(** [merged.get(k) is not None]: a present, non-[None] entry. *)
Definition not_none_entry (merged : PyDict.t pyval) (k : string) : PyDict.t pyval :=
  match PyDict.get merged k with
  | Some PNone | None => []
  | Some v => [(k, v)]
  end.

(** [flattened_resources], the body shared by both resolvers. *)
Definition flatten_resources (global_res step_res : option Resources) : PyDict.t pyval :=
  let merged := PyDict.update (dump_opt_resources global_res) (dump_opt_resources step_res) in
  let merged' := PyDict.del merged "advanced_options" in
  let advanced_opts_dict := pop_advanced merged in
  let flattened := (not_none_entry merged' "cpus" ++ not_none_entry merged' "memory")%list in
  PyDict.update flattened advanced_opts_dict.

Record WorkflowSpecOptions := mkWSOptions {
  default_resources : option Resources;
  wf_scope : option string
}.

(** [StepDefinition._get_pipefunc_resources(global_resources)] *)
Definition get_pipefunc_resources (self : StepDefinition) (global_resources : option Resources)
  : PyDict.t pyval :=
  flatten_resources global_resources self.(step_resources).

(** [resolve_resources(options, step, workflow)]: the value it stores under
    [options["resources"]], if any. *)
Definition resolve_resources (wf_options : option WorkflowSpecOptions) (step : StepDefinition)
  : option (PyDict.t pyval) :=
  let global_resources_model :=
    match wf_options with Some o => o.(default_resources) | None => None end in
  match flatten_resources global_resources_model step.(step_resources) with
  | [] => None
  | flattened_resources => Some flattened_resources
  end.

(** ** Workflow definition *)

(** A value of [WorkflowSpec.inputs : dict[str, InputItem | str]]. *)
Inductive input_spec := ISItem (i : InputItem) | ISStr (s : string).

Record WorkflowSpec := mkWorkflowSpec {
  default_module : option string;
  spec_options : option WorkflowSpecOptions;
  spec_inputs : option (PyDict.t input_spec);
  spec_outputs : option (PyDict.t string);
  spec_steps : list StepDefinition
}.

Record WorkflowDefinition := mkWorkflow {
  metadata_name : string;
  spec : WorkflowSpec
}.

(** ** run/input_resolver.py: [InputResolver.resolve] *)

(** [f"{workflow_scope}.{name}" if workflow_scope else name] *)
Definition scoped_key (workflow_scope : option string) (name : string) : string :=
  match workflow_scope with
  | Some sc => if String.eqb sc "" then name else sc ++ "." ++ name
  | None => name
  end.

(** [value = spec.value if isinstance(spec.value, dict) else spec;
     value.model_dump()]: a plain string has no [.value], a dict has no
    [.model_dump()], and [InputItem.model_dump] returns [self.value]. *)
Definition global_default (sp : input_spec) : outcome pyval :=
  match sp with
  | ISStr _ => Raise (PyExc "AttributeError" "'str' object has no attribute 'value'")
  | ISItem it =>
      match it.(item_value) with
      | PDict _ => Raise (PyExc "AttributeError" "'dict' object has no attribute 'model_dump'")
      | v => Ok v
      end
  end.

(** Step 1: apply the global input defaults. *)
Fixpoint apply_global_defaults (workflow_scope : option string) (gs : PyDict.t input_spec)
    (resolved : PyDict.t pyval) : outcome (PyDict.t pyval) :=
  match gs with
  | [] => Ok resolved
  | (name, sp) :: rest =>
      let scoped_name := scoped_key workflow_scope name in
      value <- global_default sp ;;
      apply_global_defaults workflow_scope rest (PyDict.set resolved scoped_name value)
  end.

Fixpoint nodup_str (l : list string) : list string :=
  match l with
  | [] => []
  | x :: rest => x :: filter (fun y => negb (String.eqb x y)) (nodup_str rest)
  end.

(** [set(required) - set(resolved.keys())]; a Python set has no fixed
    iteration order, the model keeps the order of [required]. *)
Definition missing_inputs (required : list string) (resolved : PyDict.t pyval) : list string :=
  nodup_str (filter (fun r => negb (PyDict.mem r resolved)) required).

Definition render_set (l : list string) : string :=
  "{" ++ String.concat ", " (map (fun x => "'" ++ x ++ "'") l) ++ "}".

Definition missing_message (wf_name : string) (missing present : list string) : string :=
  "Missing required inputs for pipeline '" ++ wf_name ++ "': missing_inputs=" ++
  render_set missing ++ " set(resolved.keys())=" ++ render_set present.

Definition InputResolver_resolve (user_inputs : PyDict.t pyval) (workflow_model : WorkflowDefinition)
    (pipeline_inputs pipeline_required_inputs : list string) : outcome (PyDict.t pyval) :=
  let global_inputs_spec := workflow_model.(spec).(spec_inputs) in
  let workflow_scope :=
    match workflow_model.(spec).(spec_options) with Some o => o.(wf_scope) | None => None end in
  resolved <- match global_inputs_spec with
              | Some ((_ :: _) as gs) => apply_global_defaults workflow_scope gs []
              | _ => Ok []
              end ;;
  let resolved := PyDict.update resolved user_inputs in
  let missing := missing_inputs pipeline_required_inputs resolved in
  match missing with
  | _ :: _ =>
      Raise (PyExc "InputResolverError"
               (missing_message workflow_model.(metadata_name) missing
                  (nodup_str (PyDict.keys resolved))))
  | [] => Ok (PyDict.filter_keys (fun k => str_mem k pipeline_inputs) resolved)
  end.

(** ** workflow_definition/utils.py: run ids *)

(** The names bound at module level in workflow_definition/utils.py: its
    imports ([string], [uuid], [datetime], [Any]) and its own functions.
    Looking up any other global name raises NameError. *)
Definition utils_module_globals : list string :=
  ["string"; "uuid"; "datetime"; "Any"; "sanitize_string"; "generate_unique_id";
   "is_jinja_template"; "is_direct_jinja_reference"].

Definition load_global (name : string) : outcome unit :=
  if str_mem name utils_module_globals then Ok tt
  else Raise (PyExc "NameError" ("name '" ++ name ++ "' is not defined")).

Definition chr (n : nat) : string := String (ascii_of_nat n) EmptyString.

Fixpoint range_chars (start count : nat) : string :=
  match count with
  | 0 => EmptyString
  | S c => chr start ++ range_chars (S start) c
  end.

(** [string.ascii_letters + string.digits + "-_"] *)
Definition allowed_chars : string :=
  range_chars 97 26 ++ range_chars 65 26 ++ range_chars 48 10 ++ "-_".

(** [string.punctuation]: the ASCII codes 33-47, 58-64, 91-96 and 123-126. *)
Definition punctuation : string :=
  range_chars 33 15 ++ range_chars 58 7 ++ range_chars 91 6 ++ range_chars 123 4.

Fixpoint str_has (c : ascii) (s : string) : bool :=
  match s with
  | EmptyString => false
  | String c' rest => Ascii.eqb c c' || str_has c rest
  end.

(** [data.translate(str.maketrans("", "", allowed_chars))]: the third
    argument of [maketrans] lists characters to delete. *)
Fixpoint translate_delete (del : string) (s : string) : string :=
  match s with
  | EmptyString => EmptyString
  | String c rest =>
      if str_has c del then translate_delete del rest
      else String c (translate_delete del rest)
  end.

(** [s.replace(pat, rep)] for a non-empty [pat], left to right. *)
Fixpoint replace_fuel (fuel : nat) (pat rep s : string) : string :=
  match fuel with
  | 0 => s
  | S f =>
      match s with
      | EmptyString => EmptyString
      | String c rest =>
          if String.prefix pat s
          then rep ++ replace_fuel f pat rep (substring (String.length pat) (String.length s) s)
          else String c (replace_fuel f pat rep rest)
      end
  end.

Definition py_replace (s pat rep : string) : string := replace_fuel (String.length s) pat rep s.

(** [re.sub(r"_+", "_", s)] *)
Fixpoint collapse_underscores (prev_us : bool) (s : string) : string :=
  match s with
  | EmptyString => EmptyString
  | String c rest =>
      if Ascii.eqb c "_" then
        if prev_us then collapse_underscores true rest
        else String c (collapse_underscores true rest)
      else String c (collapse_underscores false rest)
  end.

Fixpoint lstrip_us (s : string) : string :=
  match s with
  | String c rest => if Ascii.eqb c "_" then lstrip_us rest else s
  | EmptyString => EmptyString
  end.

Definition rev_str (s : string) : string := string_of_list_ascii (rev (list_ascii_of_string s)).

(** [s.strip("_")] *)
Definition strip_us (s : string) : string := rev_str (lstrip_us (rev_str (lstrip_us s))).

Definition sanitize_string (data : string) : outcome string :=
  let sanitized := py_replace (translate_delete allowed_chars data) punctuation "_" in
  _ <- load_global "re" ;;
  let remove_duplicate_underscores := collapse_underscores false sanitized in
  Ok (strip_us remove_duplicate_underscores).

Record datetime := mkDatetime {
  year : nat; month : nat; day : nat; hour : nat; minute : nat; second : nat
}.

Fixpoint pad_digits (width n : nat) : string :=
  match width with
  | 0 => EmptyString
  | S w => pad_digits w (n / 10) ++ chr (48 + n mod 10)
  end.

(** [now.strftime("%Y%m%d_%H%M%S")] *)
Definition strftime_ts (now : datetime) : string :=
  pad_digits 4 now.(year) ++ pad_digits 2 now.(month) ++ pad_digits 2 now.(day) ++ "_" ++
  pad_digits 2 now.(hour) ++ pad_digits 2 now.(minute) ++ pad_digits 2 now.(second).

(** [generate_unique_id(run_name)], with the clock reading [now] and the
    32 hex digits [uuid_hex] of [uuid.uuid4().hex]. *)
Definition generate_unique_id (run_name : option string) (now : datetime) (uuid_hex : string)
  : outcome string :=
  let timestamp := strftime_ts now in
  let unique_suffix := substring 0 6 uuid_hex in
  prefix <- match run_name with
            | Some n => if String.eqb n "" then Ok "run" else sanitize_string n
            | None => Ok "run"
            end ;;
  Ok (prefix ++ "_" ++ timestamp ++ "_" ++ unique_suffix).

Definition is_digit (c : ascii) : bool :=
  let n := nat_of_ascii c in Nat.leb 48 n && Nat.leb n 57.

Definition is_lower_hex (c : ascii) : bool :=
  is_digit c || (let n := nat_of_ascii c in Nat.leb 97 n && Nat.leb n 102).

Definition all_chars (p : ascii -> bool) (s : string) : bool :=
  forallb p (list_ascii_of_string s).

(** The shape [yyyymmdd_HHMMSS]. *)
Definition timestamp_shape (ts : string) : bool :=
  Nat.eqb (String.length ts) 15 && all_chars is_digit (substring 0 8 ts) &&
  String.eqb (substring 8 1 ts) "_" && all_chars is_digit (substring 9 6 ts).

(** The shape [{prefix}_{yyyymmdd_HHMMSS}_{6 hex chars}]. *)
Definition run_id_shape (prefix id : string) : Prop :=
  exists ts hex, id = prefix ++ "_" ++ ts ++ "_" ++ hex /\
    timestamp_shape ts = true /\ String.length hex = 6 /\ all_chars is_lower_hex hex = true.

(** [str.isspace] on one character, the string's bytes read as the code
    points U+0000 to U+00FF. *)
Definition py_isspace (c : ascii) : bool :=
  let n := nat_of_ascii c in
  (Nat.leb 9 n && Nat.leb n 13) || (Nat.leb 28 n && Nat.leb n 32)
  || Nat.eqb n 133 || Nat.eqb n 160.

Fixpoint lstrip_ws (s : string) : string :=
  match s with
  | String c rest => if py_isspace c then lstrip_ws rest else s
  | EmptyString => EmptyString
  end.

Fixpoint rstrip_ws (s : string) : string :=
  match s with
  | EmptyString => EmptyString
  | String c rest =>
      match rstrip_ws rest with
      | EmptyString => if py_isspace c then EmptyString else String c EmptyString
      | r => String c r
      end
  end.

(** [s.strip()] *)
Definition py_strip (s : string) : string := rstrip_ws (lstrip_ws s).

(** [pat in s] *)
Fixpoint py_contains (pat s : string) : bool :=
  String.prefix pat s ||
  match s with
  | EmptyString => false
  | String _ rest => py_contains pat rest
  end.

(** [s.count(pat)] for a non-empty [pat]: non-overlapping, left to right. *)
Fixpoint count_fuel (fuel : nat) (pat s : string) : nat :=
  match fuel with
  | 0 => 0
  | S f =>
      match s with
      | EmptyString => 0
      | String c rest =>
          if String.prefix pat s
          then S (count_fuel f pat (substring (String.length pat) (String.length s) s))
          else count_fuel f pat rest
      end
  end.

Definition py_count (s pat : string) : nat := count_fuel (String.length s) pat s.

(** [s.endswith(suffix)] *)
Definition py_endswith (s suffix : string) : bool :=
  Nat.leb (String.length suffix) (String.length s) &&
  String.eqb (substring (String.length s - String.length suffix) (String.length suffix) s) suffix.

(** [is_jinja_template(value)] *)
Definition is_jinja_template (value : pyval) : bool :=
  match value with
  | PStr v => py_contains "{{" v && py_contains "}}" v
  | _ => false
  end.

(** [is_direct_jinja_reference(value)] *)
Definition is_direct_jinja_reference (value : pyval) : bool :=
  match value with
  | PStr v =>
      let stripped := py_strip v in
      let has_exactly_one_open := Nat.eqb (py_count stripped "{{") 1 in
      let has_exactly_one_close := Nat.eqb (py_count stripped "}}") 1 in
      let starts_with_open := String.prefix "{{" stripped in
      let ends_with_close := py_endswith stripped "}}" in
      forallb id [has_exactly_one_open; has_exactly_one_close; starts_with_open; ends_with_close]
  | _ => false
  end.

(** ** run/summary_model.py and run/state_tracker.py *)

Inductive Status := PENDING | RUNNING | SUCCESS | FAILED.

(** [Summary]; the timestamps are reduced to whether [end_time] is set. *)
Record Summary := mkSummary {
  run_id : string;
  workflow_name : string;
  status : Status;
  end_time_set : bool;
  user_inputs : PyDict.t pyval;
  resolved_inputs : PyDict.t pyval;
  persisted_outputs : PyDict.t string;
  run_dir : string;
  error_message : option string
}.

Definition output_dir (s : Summary) : string := s.(run_dir) ++ "/outputs".

Definition with_user_inputs (s : Summary) (u : PyDict.t pyval) : Summary :=
  mkSummary s.(run_id) s.(workflow_name) s.(status) s.(end_time_set) u
    s.(resolved_inputs) s.(persisted_outputs) s.(run_dir) s.(error_message).

Definition with_resolved_inputs (s : Summary) (r : PyDict.t pyval) : Summary :=
  mkSummary s.(run_id) s.(workflow_name) s.(status) s.(end_time_set) s.(user_inputs)
    r s.(persisted_outputs) s.(run_dir) s.(error_message).

Definition with_persisted_outputs (s : Summary) (m : PyDict.t string) : Summary :=
  mkSummary s.(run_id) s.(workflow_name) s.(status) s.(end_time_set) s.(user_inputs)
    s.(resolved_inputs) m s.(run_dir) s.(error_message).

(** [RunStateTracker.complete_run(status, error_message)]: the message is
    recorded only when it is truthy. *)
Definition complete_summary (s : Summary) (st : Status) (err : option string) : Summary :=
  mkSummary s.(run_id) s.(workflow_name) st true s.(user_inputs)
    s.(resolved_inputs) s.(persisted_outputs) s.(run_dir)
    (if truthy_str err then err else s.(error_message)).

(** What the coordinator's local [summary] is bound to: nothing yet, the
    very object held by the tracker ([state_tracker.get_summary()] returns
    it, not a copy), or a summary object of its own. *)
Inductive summary_ref := NoSummary | TrackerSummary | OwnSummary (s : Summary).

(** The coordinator's mutable state: [state_tracker._summary_data], the
    local [summary], and the summary files written so far. *)
Record CState := mkCState {
  tracker : option Summary;
  summary_var : summary_ref;
  summary_files : PyDict.t Summary
}.

(** A small state and error monad over [CState]. *)
Definition M (A : Type) := CState -> CState * outcome A.

Definition mret {A} (a : A) : M A := fun st => (st, Ok a).

Definition mbind {A B} (m : M A) (f : A -> M B) : M B :=
  fun st => let (st', r) := m st in
            match r with Ok a => f a st' | Raise e => (st', Raise e) end.

Definition lift {A} (o : outcome A) : M A := fun st => (st, o).

Notation "x <-- m ;;; k" := (mbind m (fun x => k))
  (at level 61, m at next level, right associativity).

(** [state_tracker.get_summary()] followed by a mutation of that object. *)
Definition tracker_update (f : Summary -> Summary) : M unit :=
  fun st =>
    match st.(tracker) with
    | Some s => (mkCState (Some (f s)) st.(summary_var) st.(summary_files), Ok tt)
    | None => (st, Raise (PyExc "ValueError" "Run has not been started. Call start_run() first."))
    end.

Definition start_run (rid name rdir : string) : M unit :=
  fun st =>
    (mkCState (Some (mkSummary rid name RUNNING false [] [] [] rdir None))
       st.(summary_var) st.(summary_files), Ok tt).

Definition bind_summary_var (r : summary_ref) : M unit :=
  fun st => (mkCState st.(tracker) r st.(summary_files), Ok tt).

(** ** External collaborators of the coordinator *)

(** [pipeline.info()]: the names it reports. *)
Record Pipeline := mkPipeline { info_inputs : list string; info_required_inputs : list string }.

Record RunServices := mkServices {
  svc_load : outcome WorkflowDefinition;                       (* definition_loader.from_path *)
  svc_setup_dirs : string -> string -> outcome string;         (* env_manager.setup_run_directories: run_dir *)
  svc_build : WorkflowDefinition -> outcome Pipeline;          (* pipeline_builder.build *)
  svc_load_input_file : outcome (PyDict.t pyval);              (* input_provider.load_from_file *)
  svc_map : Pipeline -> PyDict.t pyval -> outcome (PyDict.t pyval);  (* pipeline.map *)
  svc_persist : PyDict.t pyval -> WorkflowDefinition -> string -> outcome (PyDict.t string);
  svc_write_ok : string -> bool                                (* writing that file succeeds *)
}.

(** pipeline/executor.py: [PipelineExecutor.execute] *)
Definition PipelineExecutor_execute (map : Pipeline -> PyDict.t pyval -> outcome (PyDict.t pyval))
    (pipeline : Pipeline) (resolved : PyDict.t pyval) (name : string) : outcome (PyDict.t pyval) :=
  let pipeline_name := if String.eqb name "" then "Unnamed Pipeline" else name in
  match map pipeline resolved with
  | Ok results => Ok results
  | Raise e =>
      Raise (PyExc "PipelineExecutionError"
               ("Pipeline execution failed for '" ++ pipeline_name ++ "': " ++ e.(exc_msg)))
  end.

(** run/summary_persister.py: [SummaryPersister.save]; the file is keyed by
    its path and holds the summary it dumps. *)
Definition SummaryPersister_save (write_ok : string -> bool) (summary : Summary)
    (files : PyDict.t Summary) : outcome (string * PyDict.t Summary) :=
  let summary_file_path := summary.(run_dir) ++ "/summary.json" in
  if write_ok summary_file_path
  then Ok (summary_file_path, PyDict.set files summary_file_path summary)
  else Raise (PyExc "SummaryPersistenceError" ("Could not save summary to " ++ summary_file_path)).

(** The raw user inputs: the input file wins over in-memory data. *)
Definition load_user_inputs (svc : RunServices) (input_data : option (PyDict.t pyval))
    (has_input_file : bool) : outcome (PyDict.t pyval) :=
  if has_input_file then svc.(svc_load_input_file)
  else match input_data with Some d => Ok d | None => Ok [] end.

(** The [try] block of [execute_workflow]. *)
Definition run_try_block (svc : RunServices) (rid : string) (input_data : option (PyDict.t pyval))
    (has_input_file : bool) : M unit :=
  workflow_model <-- lift svc.(svc_load) ;;;
  rdir <-- lift (svc.(svc_setup_dirs) workflow_model.(metadata_name) rid) ;;;
  _ <-- start_run rid workflow_model.(metadata_name) rdir ;;;
  _ <-- bind_summary_var TrackerSummary ;;;
  pipeline <-- lift (svc.(svc_build) workflow_model) ;;;
  raw_user_inputs <-- lift (load_user_inputs svc input_data has_input_file) ;;;
  _ <-- tracker_update (fun s => with_user_inputs s raw_user_inputs) ;;;
  resolved <-- lift (InputResolver_resolve raw_user_inputs workflow_model
                       pipeline.(info_inputs) pipeline.(info_required_inputs)) ;;;
  _ <-- tracker_update (fun s => with_resolved_inputs s resolved) ;;;
  pipeline_results <-- lift (PipelineExecutor_execute svc.(svc_map) pipeline resolved
                               workflow_model.(metadata_name)) ;;;
  manifest <-- lift (svc.(svc_persist) pipeline_results workflow_model (rdir ++ "/outputs")) ;;;
  _ <-- tracker_update (fun s => with_persisted_outputs s manifest) ;;;
  tracker_update (fun s => complete_summary s SUCCESS None).

(** Observable events of one run, in order. *)
Inductive run_event :=
| SummarySaved (path : string)
| SummarySaveFailed (e : py_exc)
| NoSummaryToSave
| RunRaised (e : py_exc)
| RunReturned.

(** The [except] block: it marks the tracker's summary FAILED and raises
    [WorkflowRunError]; without a started summary it builds a minimal one
    from [summary.start_time] with [summary] still [None], which raises
    AttributeError. *)
Definition run_except_block (rid : string) (e : py_exc) : M unit :=
  fun st =>
    match st.(tracker) with
    | Some s =>
        (mkCState (Some (complete_summary s FAILED (Some e.(exc_msg))))
           st.(summary_var) st.(summary_files),
         Raise (PyExc "WorkflowRunError" ("Run '" ++ rid ++ "' failed.")))
    | None =>
        (st, Raise (PyExc "AttributeError" "'NoneType' object has no attribute 'start_time'"))
    end.

Definition deref_summary (st : CState) : option Summary :=
  match st.(summary_var) with
  | NoSummary => None
  | TrackerSummary => st.(tracker)
  | OwnSummary s => Some s
  end.

(** The [finally] block: save the summary if there is one, swallowing a
    save failure. *)
Definition run_finally_block (write_ok : string -> bool) (st : CState) : CState * list run_event :=
  match deref_summary st with
  | Some s =>
      match SummaryPersister_save write_ok s st.(summary_files) with
      | Ok (path, files') =>
          (mkCState st.(tracker) st.(summary_var) files', [SummarySaved path])
      | Raise e_sum => (st, [SummarySaveFailed e_sum])
      end
  | None => (st, [NoSummaryToSave])
  end.

(** [WorkflowRunCoordinator.execute_workflow], from the tracker's run id
    on; [files] are the summary files already on disk. *)
Definition execute_workflow (svc : RunServices) (rid : string)
    (input_data : option (PyDict.t pyval)) (has_input_file : bool)
    (files : PyDict.t Summary) : PyDict.t Summary * list run_event * outcome (option Summary) :=
  let st0 := mkCState None NoSummary files in
  let (st1, r) := run_try_block svc rid input_data has_input_file st0 in
  let (st2, r') := match r with
                   | Ok _ => (st1, Ok tt)
                   | Raise e => run_except_block rid e st1
                   end in
  let (st3, evs) := run_finally_block svc.(svc_write_ok) st2 in
  match r' with
  | Raise e => (st3.(summary_files), (evs ++ [RunRaised e])%list, Raise e)
  | Ok _ => (st3.(summary_files), (evs ++ [RunReturned])%list, Ok (deref_summary st3))
  end.

(** ** run/output_persister.py: [OutputPersister.persist] *)

(** A pipeline result; the persister reads its [.output]. *)
Record PipeResult := mkPipeResult { output : pyval }.

(** [_prepare_data_for_serialization]: numpy values are not among the
    modelled values, lists and dicts are rebuilt element-wise. *)
Fixpoint prepare_data (v : pyval) : pyval :=
  match v with
  | PList l => PList (map prepare_data l)
  | PDict kvs => PDict (map (fun kv => (fst kv, prepare_data (snd kv))) kvs)
  | _ => v
  end.

(** The file system as the persister sees it. *)
Record PersistIO := mkPersistIO {
  io_dir_exists : string -> bool;
  io_mkdir : string -> outcome unit;
    (* [p.mkdir(parents=True, exist_ok=True)] for the base directory, and
       [target.parent.mkdir(...)] when applied to an output's target *)
  io_resolve : string -> string;                (* Path.resolve() *)
  io_serialize : pyval -> string -> outcome unit  (* _serialize_output(data, path) *)
}.

Definition is_absolute (p : string) : bool := String.prefix "/" p.

(** What happened to one declared output. *)
Inductive persist_log :=
| OutputMissing (name key : string)
| OutputFailed (name : string) (e : py_exc)
| OutputPersisted (name path : string).

(** The body of the per-output loop, from [target_file_path] on:
    [try: mkdir parent; serialize; manifest[name] = str(target)] with every
    [Exception] logged. *)
Definition persist_one (io : PersistIO) (name target : string) (data : pyval)
    (manifest : PyDict.t string) : PyDict.t string * persist_log :=
  match (_ <- io.(io_mkdir) target ;; io.(io_serialize) data target) with
  | Ok _ => (PyDict.set manifest name target, OutputPersisted name target)
  | Raise e => (manifest, OutputFailed name e)
  end.

Fixpoint persist_loop (io : PersistIO) (results : PyDict.t PipeResult)
    (global_scope : option string) (output_dir : string) (declared : PyDict.t string)
    (manifest : PyDict.t string) : PyDict.t string * list persist_log :=
  match declared with
  | [] => (manifest, [])
  | (declared_output_name, defined_path_spec) :: rest =>
      let actual_result_key := scoped_key global_scope declared_output_name in
      match PyDict.get results actual_result_key with
      | None =>
          let r := persist_loop io results global_scope output_dir rest manifest in
          (fst r, OutputMissing declared_output_name actual_result_key :: snd r)
      | Some res =>
          let data_to_persist := prepare_data res.(output) in
          let target_file_path :=
            if is_absolute defined_path_spec then defined_path_spec
            else io.(io_resolve) (output_dir ++ "/" ++ defined_path_spec) in
          let (manifest', entry) :=
            persist_one io declared_output_name target_file_path data_to_persist manifest in
          let r := persist_loop io results global_scope output_dir rest manifest' in
          (fst r, entry :: snd r)
      end
  end.

(** [global_scope]: the workflow scope when it is set and non-empty. *)
Definition output_scope (workflow_model : WorkflowDefinition) : option string :=
  match workflow_model.(spec).(spec_options) with
  | Some o => if truthy_str o.(wf_scope) then o.(wf_scope) else None
  | None => None
  end.

Definition OutputPersister_persist (io : PersistIO) (results : PyDict.t PipeResult)
    (workflow_model : WorkflowDefinition) (output_dir : string)
    : outcome (PyDict.t string * list persist_log) :=
  match workflow_model.(spec).(spec_outputs) with
  | None | Some [] => Ok ([], [])
  | Some declared_outputs =>
      _ <- (if io.(io_dir_exists) output_dir then Ok tt
            else match io.(io_mkdir) output_dir with
                 | Ok _ => Ok tt
                 | Raise e => Raise (PyExc "OutputPersisterError"
                                      ("Could not create base output directory " ++ output_dir ++
                                       ": " ++ e.(exc_msg)))
                 end) ;;
      let global_scope := output_scope workflow_model in
      Ok (persist_loop io results global_scope output_dir declared_outputs [])
  end.

(** The fate of one declared output, read off the inputs of [persist]. *)
Definition expected_entry (io : PersistIO) (results : PyDict.t PipeResult)
    (global_scope : option string) (output_dir : string) (decl : string * string) : persist_log :=
  let (name, path_spec) := decl in
  let key := scoped_key global_scope name in
  match PyDict.get results key with
  | None => OutputMissing name key
  | Some res =>
      let target := if is_absolute path_spec then path_spec
                    else io.(io_resolve) (output_dir ++ "/" ++ path_spec) in
      match (_ <- io.(io_mkdir) target ;; io.(io_serialize) (prepare_data res.(output)) target) with
      | Ok _ => OutputPersisted name target
      | Raise e => OutputFailed name e
      end
  end.

(** ** pipeline/resolvers.py and pipeline/builder.py *)

(** The keys of [final_options] that no step resolver reads or writes:
    they go from [step.options.model_dump(exclude_none=True)] straight into
    [pipefunc.PipeFunc( **final_options )]. *)
Record PassThrough := mkPassThrough {
  pt_bound : option (PyDict.t pyval);
  pt_profile : option bool;
  pt_debug : option bool;
  pt_cache : option bool;
  pt_advanced_options : option (PyDict.t pyval);
  pt_map_mode : option MapMode
}.

(** The [final_options] dict that the step resolvers fill in, by key. *)
Record FinalOptions := mkFinalOptions {
  fo_func : option string;                (* options["func"], the imported path *)
  fo_renames : option (PyDict.t string);
  fo_defaults : option (PyDict.t pyval);
  fo_resources : option (PyDict.t pyval);
  fo_scope : option string;
  fo_mapspec : option string;
  fo_output_name : option out_name;
  fo_rest : PassThrough
}.

(** [step.options.model_dump(exclude_none=True, by_alias=True)] *)
Definition initial_final_options (step : StepDefinition) : FinalOptions :=
  match step.(step_options) with
  | Some o => mkFinalOptions None o.(renames) o.(defaults) None o.(scope) o.(mapspec) o.(output_name)
                (mkPassThrough o.(bound) o.(profile) o.(debug) o.(cache)
                   o.(opt_advanced_options) o.(map_mode))
  | None => mkFinalOptions None None None None None None None
              (mkPassThrough None None None None None None)
  end.

(** The collaborators of the builder outside this repository:
    [import_callable] and the [pipefunc] constructors. *)
Record BuildEnv := mkBuildEnv {
  import_ok : string -> bool;
  pipefunc_ok : FinalOptions -> bool;   (* PipeFunc's own checks past its signature *)
  pipeline_ok : list FinalOptions -> bool
}.

(** [function_path_str = step.func], defaulted to
    [f"{default_module}.{step.name}"] when both are set. *)
Definition function_path (step : StepDefinition) (workflow : WorkflowDefinition)
  : outcome string :=
  let default_module := workflow.(spec).(default_module) in
  if truthy_str step.(step_func) then
    Ok (match step.(step_func) with Some f => f | None => "" end)
  else if truthy_str default_module && negb (String.eqb step.(step_name) "") then
    Ok (match default_module with Some m => m | None => "" end ++ "." ++ step.(step_name))
  else Raise (PyExc "PipelineBuildError"
                ("Step '" ++ step.(step_name) ++
                 "': 'func' is not specified and cannot be defaulted."))%string.

Definition resolve_function_path (env : BuildEnv) (options : FinalOptions)
    (step : StepDefinition) (workflow : WorkflowDefinition) : outcome FinalOptions :=
  function_path_str <- function_path step workflow ;;
  if env.(import_ok) function_path_str then
    Ok (mkFinalOptions (Some function_path_str) options.(fo_renames) options.(fo_defaults)
          options.(fo_resources) options.(fo_scope) options.(fo_mapspec) options.(fo_output_name)
            options.(fo_rest))
  else Raise (PyExc "PipelineBuildError"
                ("Could not import callable '" ++ function_path_str ++ "' for step '" ++
                 step.(step_name) ++ "'")).

(** The loop of [resolve_input_renames]: [input_value.startswith(...)] on a
    non-string input value raises AttributeError. *)
Fixpoint input_renames (ins : PyDict.t step_input) (acc : PyDict.t string)
  : outcome (PyDict.t string) :=
  match ins with
  | [] => Ok acc
  | (name, SIStr input_value) :: rest =>
      if String.prefix "$global." input_value then
        let global_var_name := after_first_dot input_value in
        if String.eqb name global_var_name then input_renames rest acc
        else input_renames rest (PyDict.set acc name global_var_name)
      else input_renames rest acc
  | (_, _) :: _ => Raise (PyExc "AttributeError" "object has no attribute 'startswith'")
  end.

Definition resolve_input_renames (options : FinalOptions) (step : StepDefinition)
  : outcome FinalOptions :=
  rn <- match step.(step_inputs) with
        | Some ((_ :: _) as ins) => input_renames ins []
        | _ => Ok []
        end ;;
  match rn with
  | [] => Ok options
  | _ =>
      let merged := match options.(fo_renames) with
                    | Some r => PyDict.update r rn
                    | None => rn
                    end in
      Ok (mkFinalOptions options.(fo_func) (Some merged) options.(fo_defaults)
            options.(fo_resources) options.(fo_scope) options.(fo_mapspec) options.(fo_output_name)
            options.(fo_rest))
  end.

Definition resolve_input_defaults (options : FinalOptions) (step : StepDefinition)
  : FinalOptions :=
  match step.(step_parameters) with
  | Some ((_ :: _) as params) =>
      let current := match options.(fo_defaults) with Some d => d | None => [] end in
      let current' :=
        fold_left (fun acc kv => if PyDict.mem (fst kv) acc then acc
                                 else PyDict.set acc (fst kv) (snd kv)) params current in
      mkFinalOptions options.(fo_func) options.(fo_renames) (Some current')
        options.(fo_resources) options.(fo_scope) options.(fo_mapspec) options.(fo_output_name)
        options.(fo_rest)
  | _ => options
  end.

Definition resolve_step_resources (options : FinalOptions) (step : StepDefinition)
    (workflow : WorkflowDefinition) : FinalOptions :=
  match resolve_resources workflow.(spec).(spec_options) step with
  | Some res =>
      mkFinalOptions options.(fo_func) options.(fo_renames) options.(fo_defaults)
        (Some res) options.(fo_scope) options.(fo_mapspec) options.(fo_output_name)
        options.(fo_rest)
  | None => options
  end.

Definition resolve_step_scope (options : FinalOptions) (step : StepDefinition) : FinalOptions :=
  match step.(step_options) with
  | Some o =>
      match o.(scope) with
      | Some sc => mkFinalOptions options.(fo_func) options.(fo_renames) options.(fo_defaults)
                     options.(fo_resources) (Some sc) options.(fo_mapspec) options.(fo_output_name)
                     options.(fo_rest)
      | None => options
      end
  | None => options
  end.

(** A resolver failure, re-raised by [_create_pipe_func_from_step]. *)
Definition wrap_resolver (resolver : string) (step : StepDefinition) {A} (o : outcome A)
  : outcome A :=
  match o with
  | Ok a => Ok a
  | Raise e => Raise (PyExc "PipelineBuildError"
                        ("Error applying step option resolver '" ++ resolver ++
                         "' for step '" ++ step.(step_name) ++ "': " ++ e.(exc_msg)))
  end.

(** The keyword check of [pipefunc.PipeFunc( **final_options )]: its
    signature [PipeFunc(func, output_name, *, renames, defaults, bound,
    profile, debug, cache, mapspec, resources, scope, ...)] has no parameter
    [map_mode] or [advanced_options] (TypeError: unexpected keyword
    argument), and [output_name] has no default (TypeError: missing
    argument). *)
Definition pipefunc_signature_ok (o : FinalOptions) : bool :=
  match o.(fo_rest).(pt_map_mode), o.(fo_rest).(pt_advanced_options), o.(fo_output_name) with
  | None, None, Some _ => true
  | _, _, _ => false
  end.

(** [PipelineBuilder._create_pipe_func_from_step] with the
    [DEFAULT_STEP_RESOLVERS]; the PipeFunc is represented by its options. *)
Definition create_pipe_func_from_step (env : BuildEnv) (step : StepDefinition)
    (workflow : WorkflowDefinition) : outcome FinalOptions :=
  let final_options := initial_final_options step in
  o1 <- wrap_resolver "resolve_function_path" step
          (resolve_function_path env final_options step workflow) ;;
  o2 <- wrap_resolver "resolve_input_renames" step (resolve_input_renames o1 step) ;;
  let o3 := resolve_input_defaults o2 step in
  let o4 := resolve_step_resources o3 step workflow in
  let o5 := resolve_step_scope o4 step in
  match o5.(fo_func) with
  | None => Raise (PyExc "PipelineBuildError" ("'func' not resolved for step '" ++ step.(step_name) ++ "'."))
  | Some _ =>
      if pipefunc_signature_ok o5 && env.(pipefunc_ok) o5 then Ok o5
      else Raise (PyExc "PipelineBuildError"
                    ("Failed to instantiate PipeFunc for step '" ++ step.(step_name) ++ "'"))
  end.

(** Observable progress of [build]: the step whose [final_options] the
    builder starts to construct. *)
Inductive build_event := StepOptionsCreated (name : string).

(** The step loop of [PipelineBuilder.build]. *)
Fixpoint build_steps (env : BuildEnv) (workflow : WorkflowDefinition) (steps : list StepDefinition)
  : list build_event * outcome (list FinalOptions) :=
  match steps with
  | [] => ([], Ok [])
  | step_model :: rest =>
      let ev := StepOptionsCreated step_model.(step_name) in
      match create_pipe_func_from_step env step_model workflow with
      | Raise e => ([ev], Raise e)
      | Ok pipe_func =>
          let (evs, r) := build_steps env workflow rest in
          (ev :: evs, (funcs <- r ;; Ok (pipe_func :: funcs)))
      end
  end.

(** [PipelineBuilder.build]; the pipeline option resolvers only copy
    options and cannot fail on a validated definition. *)
Definition PipelineBuilder_build (env : BuildEnv) (workflow_model : WorkflowDefinition)
  : list build_event * outcome (list FinalOptions) :=
  let (evs, r) := build_steps env workflow_model workflow_model.(spec).(spec_steps) in
  (evs, funcs <- r ;;
        if env.(pipeline_ok) funcs then Ok funcs
        else Raise (PyExc "PipelineBuildError"
                      ("Error creating pipefunc.Pipeline for '" ++ workflow_model.(metadata_name) ++ "'"))).

(** A step of the schema tests: name, inputs, output name and map mode. *)
Definition gstep (ins : PyDict.t step_input) (out : option string) (mode : MapMode) :=
  mkStep "test_step" None (Some ins) None out None
    (Some (mkStepOptions None None None None None (Some mode) None None None None None)).

(** * Properties *)

(** The examples of tests/flowfunc/workflow_definition/test_step_definition_mapspec.py. *)
Example mapspec_test_broadcast_two :
  get_pipefunc_mapspec (gstep [("items_a", SIStr "$global.list_a"); ("items_b", SIStr "$global.list_b")]
                          (Some "pairs") BROADCAST)
  = Ok (Some "list_a[i], list_b[j] -> pairs[i,j]").
Proof. reflexivity. Qed.

Example mapspec_test_zip_three :
  get_pipefunc_mapspec (gstep [("a", SIStr "$global.x"); ("b", SIStr "step1.y");
                               ("c", SIStr "$global.z"); ("factor", SIInt 2)]
                          (Some "results") ZIP)
  = Ok (Some "x[i], y[i], z[i], factor -> results[i]").
Proof. reflexivity. Qed.

Example mapspec_test_aggregate_const :
  get_pipefunc_mapspec (gstep [("items", SIStr "$global.data"); ("method", SIStr "average")]
                          (Some "result") AGGREGATE)
  = Ok (Some "data[i], method -> result").
Proof. reflexivity. Qed.


(** ** Run ids (C8) *)

(** C8: with a non-empty custom run name, [generate_unique_id] calls
    [sanitize_string], whose [re.sub] looks up the name [re], which
    workflow_definition/utils.py never imports: the call raises NameError
    instead of producing [{sanitized name}_{timestamp}_{6 hex}]. *)
Theorem generate_unique_id_custom_name_raises :
  forall (name : string) (now : datetime) (uuid_hex : string),
    name <> "" ->
    generate_unique_id (Some name) now uuid_hex
    = Raise (PyExc "NameError" "name 're' is not defined").
Proof.
  intros name now uuid_hex Hne. unfold generate_unique_id.
  destruct (String.eqb name "") eqn:E.
  - apply String.eqb_eq in E. contradiction.
  - reflexivity.
Qed.

Lemma generate_unique_id_custom_name_raises_witness :
  "nightly" <> "" /\
  generate_unique_id (Some "nightly") (mkDatetime 2026 10 15 9 30 0)
    "3f2a9c0b1d2e4f5a6b7c8d9e0f1a2b3c"
  = Raise (PyExc "NameError" "name 're' is not defined").
Proof.
  split.
  - discriminate.
  - apply (generate_unique_id_custom_name_raises "nightly"). discriminate.
Defined.

Lemma is_digit_chr (k : nat) : k < 10 -> is_digit (ascii_of_nat (48 + k)) = true.
Proof. intros Hk. do 10 (destruct k as [|k]; [reflexivity|]). lia. Qed.

Lemma pad_digits_2 (n : nat) :
  exists a b, pad_digits 2 n = String a (String b EmptyString) /\
    is_digit a = true /\ is_digit b = true.
Proof.
  exists (ascii_of_nat (48 + (n / 10) mod 10)), (ascii_of_nat (48 + n mod 10)).
  split; [reflexivity|].
  split; apply is_digit_chr; apply Nat.mod_upper_bound; discriminate.
Qed.

Lemma pad_digits_4 (n : nat) :
  exists a b c d, pad_digits 4 n = String a (String b (String c (String d EmptyString))) /\
    is_digit a = true /\ is_digit b = true /\ is_digit c = true /\ is_digit d = true.
Proof.
  exists (ascii_of_nat (48 + (n / 10 / 10 / 10) mod 10)),
         (ascii_of_nat (48 + (n / 10 / 10) mod 10)),
         (ascii_of_nat (48 + (n / 10) mod 10)), (ascii_of_nat (48 + n mod 10)).
  split; [reflexivity|].
  repeat split; apply is_digit_chr; apply Nat.mod_upper_bound; discriminate.
Qed.

(** Without a custom run name the id has the documented shape
    [run_{yyyymmdd_HHMMSS}_{6 hex chars}], for every clock reading. *)
Lemma generate_unique_id_default_shape (now : datetime) (uuid_hex : string) :
  6 <= String.length uuid_hex -> all_chars is_lower_hex uuid_hex = true ->
  exists id, generate_unique_id None now uuid_hex = Ok id /\ run_id_shape "run" id.
Proof.
  intros Hlen Hhex.
  destruct (pad_digits_4 (year now)) as (y1 & y2 & y3 & y4 & Ey & Dy1 & Dy2 & Dy3 & Dy4).
  destruct (pad_digits_2 (month now)) as (m1 & m2 & Em & Dm1 & Dm2).
  destruct (pad_digits_2 (day now)) as (d1 & d2 & Ed & Dd1 & Dd2).
  destruct (pad_digits_2 (hour now)) as (h1 & h2 & Eh & Dh1 & Dh2).
  destruct (pad_digits_2 (minute now)) as (n1 & n2 & En & Dn1 & Dn2).
  destruct (pad_digits_2 (second now)) as (s1 & s2 & Es & Ds1 & Ds2).
  do 6 (destruct uuid_hex as [|? uuid_hex]; [simpl in Hlen; lia|]).
  eexists. split; [reflexivity|].
  eexists; eexists; split; [reflexivity|].
  unfold strftime_ts. rewrite Ey, Em, Ed, Eh, En, Es.
  assert (E0 : substring 0 0 uuid_hex = EmptyString) by (destruct uuid_hex; reflexivity).
  simpl. rewrite E0.
  unfold all_chars in Hhex. simpl in Hhex. repeat rewrite Bool.andb_true_iff in Hhex.
  destruct Hhex as (X1 & X2 & X3 & X4 & X5 & X6 & _).
  unfold timestamp_shape, all_chars. simpl.
  rewrite Dy1, Dy2, Dy3, Dy4, Dm1, Dm2, Dd1, Dd2, Dh1, Dh2, Dn1, Dn2, Ds1, Ds2.
  rewrite X1, X2, X3, X4, X5, X6. repeat split.
Qed.

(** ** Mapspec synthesis (C2, C4, C9) *)

Lemma skipn_nth_cons {A : Type} (l : list A) (i : nat) (d : A) :
  i < length l -> skipn i l = nth i l d :: skipn (S i) l.
Proof.
  revert i. induction l as [|x l IH]; intros i Hi; simpl in Hi; [lia|].
  destruct i as [|i]; [reflexivity|]. simpl. apply IH. lia.
Qed.

(** The broadcast loop gives the k-th source the symbol [indices[i + k]],
    as long as the alphabet lasts. *)
Lemma broadcast_loop_ok (msg : string) (srcs : list string) (i : nat) :
  i + length srcs <= length indices ->
  broadcast_loop msg i srcs =
  Ok (map (fun p => index_expr (fst p) (snd p))
          (combine srcs (firstn (length srcs) (skipn i indices))),
      firstn (length srcs) (skipn i indices)).
Proof.
  assert (Hn : length indices = 18) by reflexivity.
  revert i. induction srcs as [|s rest IH]; intros i Hi; [reflexivity|].
  simpl in Hi. cbn [broadcast_loop].
  assert (Hlt : Nat.leb (length indices) i = false) by (apply Nat.leb_gt; lia).
  rewrite Hlt. rewrite (IH (S i)) by lia. simpl.
  rewrite (skipn_nth_cons indices i "") by lia. reflexivity.
Qed.

(** Past the alphabet the loop raises [PipelineBuildError]. *)
Lemma broadcast_loop_overflow (msg : string) (srcs : list string) (i : nat) :
  i <= length indices -> length indices < i + length srcs ->
  broadcast_loop msg i srcs = Raise (PyExc "PipelineBuildError" msg).
Proof.
  assert (Hn : length indices = 18) by reflexivity.
  revert i. induction srcs as [|s rest IH]; intros i Hi Hover; simpl in Hover; [lia|].
  cbn [broadcast_loop]. destruct (Nat.leb (length indices) i) eqn:E; [reflexivity|].
  apply Nat.leb_gt in E. rewrite (IH (S i)) by lia. reflexivity.
Qed.

Lemma indices_NoDup : NoDup indices.
Proof.
  unfold indices.
  repeat (apply NoDup_cons; [simpl; intuition discriminate|]). apply NoDup_nil.
Qed.

Lemma firstn_indices_NoDup (n : nat) : NoDup (firstn n indices).
Proof.
  apply (NoDup_app_remove_r _ (skipn n indices)). rewrite firstn_skipn.
  apply indices_NoDup.
Qed.

Lemma values_length {V : Type} (d : PyDict.t V) : length (PyDict.values d) = length d.
Proof. unfold PyDict.values. apply length_map. Qed.

(** The schema synthesizer in broadcast mode: with N iterable inputs,
    0 < N <= 18, the k-th source gets the k-th symbol of [i, j, k, ...] and
    the output is indexed by the comma-joined N symbols. *)
Lemma schema_broadcast_mapspec (self : StepDefinition) (ins : PyDict.t step_input)
    (out : string) (o : StepOptions) :
  self.(step_options) = Some o -> truthy_str o.(mapspec) = false ->
  o.(map_mode) = Some BROADCAST ->
  self.(step_inputs) = Some ins -> self.(step_output_name) = Some out -> out <> "" ->
  0 < length (fst (classify_inputs ins [] [])) <= length indices ->
  let it := fst (classify_inputs ins [] []) in
  let syms := firstn (length it) indices in
  get_pipefunc_mapspec self =
  Ok (Some (String.concat ", "
              (map (fun p => index_expr (fst p) (snd p)) (combine (PyDict.values it) syms)
               ++ snd (classify_inputs ins [] []))%list
            ++ " -> " ++ index_expr out (String.concat "," syms))).
Proof.
  intros Ho Hm Hmode Hins Hout Hne Hlen it syms.
  unfold get_pipefunc_mapspec, explicit_mapspec.
  rewrite Ho, Hm, Hins, Hout, Hmode.
  assert (Htr : truthy_str (Some out) = true).
  { simpl. destruct (String.eqb out "") eqn:E; [apply String.eqb_eq in E; contradiction|reflexivity]. }
  rewrite Htr. simpl negb. cbv iota.
  destruct ins as [|x ins']; [simpl in Hlen; lia|].
  subst it syms.
  destruct (fst (classify_inputs (x :: ins') [] [])) as [|y it'] eqn:Eit; [simpl in Hlen; lia|].
  rewrite <- Eit.
  rewrite broadcast_loop_ok by (rewrite values_length, Eit; simpl in *; lia).
  rewrite values_length. reflexivity.
Qed.

(** Past 18 iterable inputs the schema synthesizer raises a build error. *)
Lemma schema_broadcast_overflow (self : StepDefinition) (ins : PyDict.t step_input)
    (out : string) (o : StepOptions) :
  self.(step_options) = Some o -> truthy_str o.(mapspec) = false ->
  o.(map_mode) = Some BROADCAST ->
  self.(step_inputs) = Some ins -> self.(step_output_name) = Some out -> out <> "" ->
  length indices < length (fst (classify_inputs ins [] [])) ->
  get_pipefunc_mapspec self =
  Raise (PyExc "PipelineBuildError" "Too many iterable inputs for `broadcast`.").
Proof.
  intros Ho Hm Hmode Hins Hout Hne Hlen.
  unfold get_pipefunc_mapspec, explicit_mapspec.
  rewrite Ho, Hm, Hins, Hout, Hmode.
  assert (Htr : truthy_str (Some out) = true).
  { simpl. destruct (String.eqb out "") eqn:E; [apply String.eqb_eq in E; contradiction|reflexivity]. }
  rewrite Htr. simpl negb. cbv iota.
  destruct ins as [|x ins']; [simpl in Hlen; lia|].
  destruct (fst (classify_inputs (x :: ins') [] [])) as [|y it'] eqn:Eit; [simpl in Hlen; lia|].
  rewrite <- Eit.
  rewrite broadcast_loop_overflow by (rewrite ?values_length, ?Eit; simpl in *; lia).
  reflexivity.
Qed.

(** Whenever no explicit mapspec is set, [resolve_mapspec] of step.py stops
    at [MapMode.NONE] (or at [step.options.map_mode] when the step has no
    options): the enum has no member [NONE]. *)
Lemma resolve_mapspec_attribute_error (options : StepOptions) (step : StepDefinition) :
  truthy_str options.(mapspec) = false ->
  exists msg, resolve_mapspec options step = Raise (PyExc "AttributeError" msg).
Proof.
  intros Hm. unfold resolve_mapspec. rewrite Hm.
  unfold get_step_options. destruct (step_options step); eexists; reflexivity.
Qed.

Definition broadcast_step : StepDefinition :=
  gstep [("items", SIStr "$global.my_list")] (Some "results") BROADCAST.

Definition broadcast_options : StepOptions :=
  mkStepOptions (Some (OutStr "results")) (Some [("items", "my_list")]) None None None
    (Some BROADCAST) None None None None None.

(** C2: broadcast synthesis in composition/step.py never reaches the
    index assignment: for a step with one iterable input [items] bound to
    [my_list] and output [results] in broadcast mode, [resolve_mapspec]
    raises AttributeError on [MapMode.NONE] instead of producing
    [my_list[i] -> results[i]], which the schema's synthesizer does
    produce for the same step. *)
Theorem resolve_mapspec_broadcast_raises :
  resolve_mapspec broadcast_options broadcast_step
  = Raise (PyExc "AttributeError" "NONE")
  /\ get_pipefunc_mapspec broadcast_step = Ok (Some "my_list[i] -> results[i]").
Proof. split; reflexivity. Qed.

(** The schema synthesizer in aggregate mode: every iterable source gets the
    symbol [i] and the output carries no index, whatever the number of
    iterable inputs. *)
Lemma schema_aggregate_mapspec (self : StepDefinition) (ins : PyDict.t step_input)
    (out : string) (o : StepOptions) :
  self.(step_options) = Some o -> truthy_str o.(mapspec) = false ->
  o.(map_mode) = Some AGGREGATE ->
  self.(step_inputs) = Some ins -> self.(step_output_name) = Some out -> out <> "" ->
  fst (classify_inputs ins [] []) <> [] ->
  get_pipefunc_mapspec self =
  Ok (Some (String.concat ", "
              (map (fun s => index_expr s "i") (PyDict.values (fst (classify_inputs ins [] [])))
               ++ snd (classify_inputs ins [] []))%list
            ++ " -> " ++ out)).
Proof.
  intros Ho Hm Hmode Hins Hout Hne Hit.
  unfold get_pipefunc_mapspec, explicit_mapspec.
  rewrite Ho, Hm, Hins, Hout, Hmode.
  assert (Htr : truthy_str (Some out) = true).
  { simpl. destruct (String.eqb out "") eqn:E; [apply String.eqb_eq in E; contradiction|reflexivity]. }
  rewrite Htr. simpl negb. cbv iota.
  destruct ins as [|x ins']; [simpl in Hit; contradiction|].
  destruct (fst (classify_inputs (x :: ins') [] [])) as [|y it'] eqn:Eit; [contradiction|].
  reflexivity.
Qed.

Definition aggregate_step (ins : PyDict.t step_input) : StepDefinition :=
  gstep ins (Some "summary") AGGREGATE.

Definition aggregate_options (iterables : PyDict.t string) : StepOptions :=
  mkStepOptions (Some (OutStr "summary")) (Some iterables) None None None (Some AGGREGATE) None None None None None.

(** C4: neither synthesizer behaves as stated in aggregate mode. The
    schema's [_get_pipefunc_mapspec] accepts two iterable inputs [x] and [y]
    and returns [x[i], y[i] -> summary] instead of raising; the step.py
    [resolve_mapspec], which has the one-iterable check, raises
    AttributeError on [MapMode.NONE] before reaching it, even for the single
    iterable input [results] that should give [results[i] -> summary]. *)
Theorem aggregate_mapspec_divergence :
  get_pipefunc_mapspec (aggregate_step [("x", SIStr "$global.x"); ("y", SIStr "$global.y")])
  = Ok (Some "x[i], y[i] -> summary")
  /\ resolve_mapspec (aggregate_options [("values", "results")])
       (aggregate_step [("values", SIStr "upstream.results")])
     = Raise (PyExc "AttributeError" "NONE")
  /\ get_pipefunc_mapspec (aggregate_step [("values", SIStr "upstream.results")])
     = Ok (Some "results[i] -> summary").
Proof. repeat split; reflexivity. Qed.

Definition empty_mapspec_step : StepDefinition :=
  mkStep "test_step" None (Some [("items", SIStr "$global.data")]) None (Some "results") None
    (Some (mkStepOptions None None None (Some "") None (Some BROADCAST) None None None None None)).

(** C9 (counterexample): a mapspec that is set but empty is not returned
    unchanged. The schema synthesizer replaces [""] with the synthesized
    [data[i] -> results[i]], and step.py's [resolve_mapspec] goes on to
    synthesize (and raises) instead of passing [""] through. *)
Lemma explicit_empty_mapspec_not_returned :
  get_pipefunc_mapspec empty_mapspec_step = Ok (Some "data[i] -> results[i]")
  /\ get_pipefunc_mapspec empty_mapspec_step <> Ok (Some "")
  /\ resolve_mapspec (mkStepOptions (Some (OutStr "results")) (Some [("items", "data")])
                        None (Some "") None (Some BROADCAST) None None None None None) empty_mapspec_step
     = Raise (PyExc "AttributeError" "NONE").
Proof.
  split; [reflexivity|]. split; [|reflexivity].
  vm_compute. discriminate.
Qed.

(** C9: for every step whose options carry a non-empty mapspec, both
    synthesizers return it unchanged, whatever the step's inputs, output
    name and map mode. *)
Theorem explicit_mapspec_passthrough (m : string) :
  m <> "" ->
  (forall (options : StepOptions) (step : StepDefinition),
      options.(mapspec) = Some m -> resolve_mapspec options step = Ok options)
  /\ (forall (step : StepDefinition) (o : StepOptions),
      step.(step_options) = Some o -> o.(mapspec) = Some m ->
      get_pipefunc_mapspec step = Ok (Some m)).
Proof.
  intros Hne.
  assert (Htr : truthy_str (Some m) = true).
  { simpl. destruct (String.eqb m "") eqn:E; [apply String.eqb_eq in E; contradiction|reflexivity]. }
  split.
  - intros options step Hm. unfold resolve_mapspec. rewrite Hm, Htr. reflexivity.
  - intros step o Ho Hm. unfold get_pipefunc_mapspec, explicit_mapspec.
    rewrite Ho, Hm, Htr. reflexivity.
Qed.

Lemma explicit_mapspec_passthrough_witness :
  "x[i] -> y[i]" <> "" /\
  (forall (options : StepOptions) (step : StepDefinition),
      options.(mapspec) = Some "x[i] -> y[i]" -> resolve_mapspec options step = Ok options)
  /\ (forall (step : StepDefinition) (o : StepOptions),
      step.(step_options) = Some o -> o.(mapspec) = Some "x[i] -> y[i]" ->
      get_pipefunc_mapspec step = Ok (Some "x[i] -> y[i]")).
Proof.
  split.
  - discriminate.
  - apply (explicit_mapspec_passthrough "x[i] -> y[i]"). discriminate.
Defined.

(** ** Resources (C6) *)

(** The value a field takes after [{**global, **step}]: the step's when set,
    else the workflow's. *)
Definition field_override {A : Type} (f : Resources -> option A)
    (global_res step_res : option Resources) : option A :=
  match match step_res with Some r => f r | None => None end with
  | Some v => Some v
  | None => match global_res with Some r => f r | None => None end
  end.

(** The merge half of the resources rule: field-by-field override of the
    workflow defaults by the step, then [advanced_options] (as a whole
    field) splatted over the named fields. *)
Lemma flatten_resources_override (global_res step_res : option Resources) :
  flatten_resources global_res step_res =
  PyDict.update
    ((match field_override cpus global_res step_res with
      | Some c => [("cpus", PInt c)] | None => [] end) ++
     (match field_override memory global_res step_res with
      | Some m => [("memory", PStr m)] | None => [] end))%list
    (match field_override advanced_options global_res step_res with
     | Some a => a | None => [] end).
Proof.
  destruct global_res as [[c1 m1 a1]|]; [destruct c1, m1, a1|];
  destruct step_res as [[c2 m2 a2]|]; try destruct c2, m2, a2; reflexivity.
Qed.

(** With the decorators in the other order ([@field_validator] outermost),
    pydantic would register the validator and reject a reserved key. *)
Lemma reordered_validator_rejects :
  exists msg,
    run_validators
      (collect_field_validators
         [("prevent_reserved_keys_in_advanced_options",
           field_validator "advanced_options" prevent_reserved_keys_in_advanced_options)]
         "advanced_options")
      (PDict [("cpus", PInt 4)])
    = Raise (PyExc "ValueError" msg).
Proof. eexists. reflexivity. Qed.

Definition reserved_adv_step : StepDefinition :=
  mkStep "train" (Some "train") None None (Some "model")
    (Some (mkResources (Some 2%Z) None (Some [("cpus", PInt 8)]))) None.

(** C6: the reserved-key check on [advanced_options] never runs: it is
    wrapped by an outer [@classmethod], so pydantic does not register it.
    Every [Resources] declaration validates unchanged, including one whose
    [advanced_options] holds [cpus], and resolving a step with [cpus = 2]
    and [advanced_options = {cpus: 8}] succeeds with [cpus = 8] instead of
    raising. *)
Theorem reserved_advanced_keys_accepted :
  (forall r : Resources, validate_Resources r = Ok r)
  /\ validate_Resources (mkResources None None (Some [("cpus", PInt 4); ("memory", PStr "1GB")]))
     = Ok (mkResources None None (Some [("cpus", PInt 4); ("memory", PStr "1GB")]))
  /\ resolve_resources None reserved_adv_step = Some [("cpus", PInt 8)].
Proof.
  split; [|split; reflexivity].
  intros [c m [a|]]; reflexivity.
Qed.

(** ** Dictionary lemmas *)

Lemma get_set {V : Type} (d : PyDict.t V) (k x : string) (v : V) :
  PyDict.get (PyDict.set d k v) x = if String.eqb x k then Some v else PyDict.get d x.
Proof.
  induction d as [|[k' v'] d IH]; simpl; [reflexivity|].
  destruct (String.eqb k k') eqn:Ekk'.
  - apply String.eqb_eq in Ekk'. subst k'. simpl. destruct (String.eqb x k); reflexivity.
  - simpl. rewrite IH. destruct (String.eqb x k') eqn:Exk'; [|reflexivity].
    apply String.eqb_eq in Exk'. subst x. rewrite String.eqb_sym, Ekk'. reflexivity.
Qed.

Lemma get_not_in {V : Type} (d : PyDict.t V) (x : string) :
  ~ In x (PyDict.keys d) -> PyDict.get d x = None.
Proof.
  induction d as [|[k v] d IH]; simpl; intros Hn; [reflexivity|].
  destruct (String.eqb x k) eqn:E.
  - apply String.eqb_eq in E. subst. exfalso. apply Hn. left. reflexivity.
  - apply IH. intros Hi. apply Hn. right. exact Hi.
Qed.

(** [{**d, **e}] looks a key up in [e] first, then in [d]. *)
Lemma get_update {V : Type} (d e : PyDict.t V) (x : string) :
  NoDup (PyDict.keys e) ->
  PyDict.get (PyDict.update d e) x =
  match PyDict.get e x with Some v => Some v | None => PyDict.get d x end.
Proof.
  unfold PyDict.update. revert d.
  induction e as [|[k v] e IH]; intros d Hnd; simpl; [reflexivity|].
  inversion Hnd as [|? ? Hk Hnd']; subst.
  rewrite (IH _ Hnd'). rewrite get_set.
  destruct (String.eqb x k) eqn:E.
  - apply String.eqb_eq in E. subst. rewrite (get_not_in e k Hk). reflexivity.
  - reflexivity.
Qed.

Lemma mem_get {V : Type} (d : PyDict.t V) (x : string) :
  PyDict.mem x d = match PyDict.get d x with Some _ => true | None => false end.
Proof.
  unfold PyDict.mem, PyDict.keys.
  induction d as [|[k v] d IH]; simpl; [reflexivity|].
  destruct (String.eqb x k); simpl; [reflexivity|exact IH].
Qed.

Lemma get_filter_keys {V : Type} (p : string -> bool) (d : PyDict.t V) (x : string) :
  PyDict.get (PyDict.filter_keys p d) x = if p x then PyDict.get d x else None.
Proof.
  unfold PyDict.filter_keys.
  induction d as [|[k v] d IH]; simpl; [destruct (p x); reflexivity|].
  destruct (p k) eqn:Ep; simpl; rewrite ?IH; destruct (String.eqb x k) eqn:E;
    try (apply String.eqb_eq in E; subst; rewrite Ep); reflexivity.
Qed.

Lemma str_mem_In (x : string) (l : list string) : str_mem x l = true <-> In x l.
Proof.
  unfold str_mem. rewrite existsb_exists. split.
  - intros [y [Hy Hxy]]. apply String.eqb_eq in Hxy. subst. exact Hy.
  - intros Hx. exists x. split; [exact Hx|]. apply String.eqb_refl.
Qed.

(** ** Input resolution (C3, C10) *)

(** The global defaults of a workflow, before the user inputs. *)
Definition resolved_globals (workflow_model : WorkflowDefinition) : outcome (PyDict.t pyval) :=
  match workflow_model.(spec).(spec_inputs) with
  | Some ((_ :: _) as gs) =>
      apply_global_defaults
        (match workflow_model.(spec).(spec_options) with Some o => o.(wf_scope) | None => None end)
        gs []
  | _ => Ok []
  end.

Lemma InputResolver_resolve_unfold user_inputs workflow_model pipeline_inputs required :
  InputResolver_resolve user_inputs workflow_model pipeline_inputs required =
  resolved <- resolved_globals workflow_model ;;
  let resolved := PyDict.update resolved user_inputs in
  match missing_inputs required resolved with
  | _ :: _ =>
      Raise (PyExc "InputResolverError"
               (missing_message workflow_model.(metadata_name) (missing_inputs required resolved)
                  (nodup_str (PyDict.keys resolved))))
  | [] => Ok (PyDict.filter_keys (fun k => str_mem k pipeline_inputs) resolved)
  end.
Proof.
  reflexivity.
Qed.

Lemma missing_inputs_ext (required : list string) (m1 m2 : PyDict.t pyval) :
  (forall r, In r required -> PyDict.get m1 r = PyDict.get m2 r) ->
  missing_inputs required m1 = missing_inputs required m2.
Proof.
  intros H. unfold missing_inputs. f_equal. apply filter_ext_in.
  intros r Hr. rewrite !mem_get, (H r Hr). reflexivity.
Qed.

(** C10: the resolved mapping only has keys the pipeline lists as inputs,
    and a user input [k] the pipeline does not list is dropped silently:
    two user mappings that differ only at [k] resolve alike (both succeed or
    both fail, and to the same values). *)
Theorem resolve_drops_unlisted_inputs
    (user1 user2 : PyDict.t pyval) (workflow_model : WorkflowDefinition)
    (pipeline_inputs required : list string) (k : string) :
  NoDup (PyDict.keys user1) -> NoDup (PyDict.keys user2) ->
  (forall x, x <> k -> PyDict.get user1 x = PyDict.get user2 x) ->
  str_mem k pipeline_inputs = false ->
  (forall r, In r required -> In r pipeline_inputs) ->
  (forall m x, InputResolver_resolve user1 workflow_model pipeline_inputs required = Ok m ->
               PyDict.mem x m = true -> str_mem x pipeline_inputs = true)
  /\ is_ok (InputResolver_resolve user1 workflow_model pipeline_inputs required)
     = is_ok (InputResolver_resolve user2 workflow_model pipeline_inputs required)
  /\ (forall m1 m2 x,
        InputResolver_resolve user1 workflow_model pipeline_inputs required = Ok m1 ->
        InputResolver_resolve user2 workflow_model pipeline_inputs required = Ok m2 ->
        PyDict.get m1 x = PyDict.get m2 x).
Proof.
  intros Hnd1 Hnd2 Hagree Hk Hreq.
  rewrite !InputResolver_resolve_unfold.
  destruct (resolved_globals workflow_model) as [R|e]; simpl;
    [|split; [intros; discriminate|split; [reflexivity|intros; discriminate]]].
  set (M1 := PyDict.update R user1). set (M2 := PyDict.update R user2).
  assert (HM : forall x, x <> k -> PyDict.get M1 x = PyDict.get M2 x).
  { intros x Hx. unfold M1, M2. rewrite !get_update by assumption.
    rewrite (Hagree x Hx). reflexivity. }
  assert (Hmiss : missing_inputs required M1 = missing_inputs required M2).
  { apply missing_inputs_ext. intros r Hr. apply HM. intros Hrk. subst r.
    apply Hreq, str_mem_In in Hr. congruence. }
  rewrite <- Hmiss.
  destruct (missing_inputs required M1) as [|r rs];
    [|split; [intros; discriminate|split; [reflexivity|intros; discriminate]]].
  split; [|split; [reflexivity|]].
  - intros m x Hm Hx. injection Hm as <-.
    rewrite mem_get, get_filter_keys in Hx.
    destruct (str_mem x pipeline_inputs); [reflexivity|discriminate].
  - intros m1 m2 x H1 H2. injection H1 as <-. injection H2 as <-.
    rewrite !get_filter_keys.
    destruct (String.eqb x k) eqn:E.
    + apply String.eqb_eq in E. subst. rewrite Hk. reflexivity.
    + apply String.eqb_neq in E. rewrite (HM x E). reflexivity.
Qed.

Definition wf_plain : WorkflowDefinition :=
  mkWorkflow "wf" (mkWorkflowSpec None None
                     (Some [("rate", ISItem (mkInputItem (PInt 3)))]) None []).

Lemma resolve_drops_unlisted_inputs_witness :
  NoDup (PyDict.keys [("x", PInt 1); ("extra", PInt 7)])
  /\ NoDup (PyDict.keys [("x", PInt 1)])
  /\ InputResolver_resolve [("x", PInt 1); ("extra", PInt 7)] wf_plain ["x"; "rate"] ["x"]
     = Ok [("rate", PInt 3); ("x", PInt 1)]
  /\ is_ok (InputResolver_resolve [("x", PInt 1); ("extra", PInt 7)] wf_plain ["x"; "rate"] ["x"])
     = is_ok (InputResolver_resolve [("x", PInt 1)] wf_plain ["x"; "rate"] ["x"]).
Proof.
  assert (Hnd1 : NoDup (PyDict.keys [("x", PInt 1); ("extra", PInt 7)])).
  { simpl. repeat constructor; simpl; intuition discriminate. }
  assert (Hnd2 : NoDup (PyDict.keys [("x", PInt 1)])).
  { simpl. repeat constructor; simpl; intuition discriminate. }
  destruct (resolve_drops_unlisted_inputs [("x", PInt 1); ("extra", PInt 7)] [("x", PInt 1)]
              wf_plain ["x"; "rate"] ["x"] "extra" Hnd1 Hnd2)
    as [_ [Hok _]].
  - intros x Hx. simpl. destruct (String.eqb x "x"); [reflexivity|].
    destruct (String.eqb x "extra") eqn:E; [|reflexivity].
    apply String.eqb_eq in E. contradiction.
  - reflexivity.
  - simpl. intros r [<-|[]]. left. reflexivity.
  - split; [exact Hnd1|]. split; [exact Hnd2|]. split; [reflexivity|exact Hok].
Defined.

Lemma nodup_str_In (x : string) (l : list string) : In x (nodup_str l) <-> In x l.
Proof.
  induction l as [|y l IH]; simpl; [reflexivity|].
  rewrite filter_In, IH. split.
  - intros [<-|[Hx _]]; [left; reflexivity|right; exact Hx].
  - intros [<-|Hx]; [left; reflexivity|].
    destruct (String.eqb y x) eqn:E.
    + apply String.eqb_eq in E. left. exact E.
    + right. split; [exact Hx|reflexivity].
Qed.

(** When resolution succeeds, a user input the pipeline lists wins over the
    workflow default of the same name. *)
Lemma resolve_user_wins (user : PyDict.t pyval) (workflow_model : WorkflowDefinition)
    (pipeline_inputs required : list string) (m : PyDict.t pyval) (k : string) (v : pyval) :
  NoDup (PyDict.keys user) ->
  InputResolver_resolve user workflow_model pipeline_inputs required = Ok m ->
  PyDict.get user k = Some v -> str_mem k pipeline_inputs = true ->
  PyDict.get m k = Some v.
Proof.
  intros Hnd Hres Hk Hin. rewrite InputResolver_resolve_unfold in Hres.
  destruct (resolved_globals workflow_model) as [R|e]; simpl in Hres; [|discriminate].
  destruct (missing_inputs required (PyDict.update R user)); [|discriminate].
  injection Hres as <-. rewrite get_filter_keys, Hin, get_update by exact Hnd.
  rewrite Hk. reflexivity.
Qed.

(** When the defaults resolve, a missing required input makes resolution
    raise one InputResolverError naming exactly the required inputs absent
    from the merged inputs. *)
Lemma resolve_missing_listed (user : PyDict.t pyval) (workflow_model : WorkflowDefinition)
    (pipeline_inputs required : list string) (R : PyDict.t pyval) (e : py_exc) :
  resolved_globals workflow_model = Ok R ->
  InputResolver_resolve user workflow_model pipeline_inputs required = Raise e ->
  let merged := PyDict.update R user in
  e = PyExc "InputResolverError"
        (missing_message workflow_model.(metadata_name) (missing_inputs required merged)
           (nodup_str (PyDict.keys merged)))
  /\ missing_inputs required merged <> []
  /\ (forall r, In r (missing_inputs required merged) <->
                In r required /\ PyDict.mem r merged = false).
Proof.
  intros HR Hres merged. rewrite InputResolver_resolve_unfold, HR in Hres. simpl in Hres.
  fold merged in Hres.
  destruct (missing_inputs required merged) as [|r0 rs] eqn:Em; [discriminate|].
  injection Hres as <-. split; [reflexivity|]. split; [discriminate|].
  intros r. rewrite <- Em. unfold missing_inputs. rewrite nodup_str_In, filter_In.
  destruct (PyDict.mem r merged); simpl; intuition discriminate.
Qed.

Definition wf_dict_default : WorkflowDefinition :=
  mkWorkflow "wf" (mkWorkflowSpec None None
                     (Some [("cfg", ISItem (mkInputItem (PDict [("a", PInt 1)])))]) None []).

Definition wf_str_default : WorkflowDefinition :=
  mkWorkflow "wf" (mkWorkflowSpec None None (Some [("x", ISStr "hello")]) None []).

(** C3: a workflow default whose value is a dict, or one given in the
    [str] shorthand of [inputs: dict[str, InputItem | str]], makes
    resolution raise AttributeError: the user value [{b: 2}] for [cfg] does
    not win over the default [{a: 1}], and the required input [x] that is
    present as a default does not resolve. *)
Theorem resolve_global_default_attribute_error :
  InputResolver_resolve [("cfg", PDict [("b", PInt 2)])] wf_dict_default ["cfg"] ["cfg"]
  = Raise (PyExc "AttributeError" "'dict' object has no attribute 'model_dump'")
  /\ InputResolver_resolve [] wf_str_default ["x"] ["x"]
     = Raise (PyExc "AttributeError" "'str' object has no attribute 'value'").
Proof. split; reflexivity. Qed.

(** ** Output persistence (C7) *)

(** The log of the loop is the per-output fate of every declared output,
    whatever the others did. *)
Lemma persist_loop_log (io : PersistIO) (results : PyDict.t PipeResult)
    (global_scope : option string) (output_dir : string) (declared : PyDict.t string)
    (manifest : PyDict.t string) :
  snd (persist_loop io results global_scope output_dir declared manifest)
  = map (expected_entry io results global_scope output_dir) declared.
Proof.
  revert manifest.
  induction declared as [|[n p] rest IH]; intros manifest; [reflexivity|].
  cbn [persist_loop map expected_entry].
  destruct (PyDict.get results (scoped_key global_scope n)) as [r|]; simpl; [|rewrite IH; reflexivity].
  unfold persist_one.
  destruct (bind _ _); simpl; rewrite IH; reflexivity.
Qed.

Lemma expected_persisted_name (io : PersistIO) (results : PyDict.t PipeResult)
    (global_scope : option string) (output_dir : string) (declared : PyDict.t string)
    (n p : string) :
  In (OutputPersisted n p) (map (expected_entry io results global_scope output_dir) declared) ->
  In n (PyDict.keys declared).
Proof.
  induction declared as [|[n0 p0] rest IH]; simpl; [tauto|].
  intros [He|Hi]; [|right; apply IH; exact Hi].
  left. revert He. unfold expected_entry.
  destruct (PyDict.get results (scoped_key global_scope n0)); [|discriminate].
  destruct (bind _ _); intros He; inversion He; reflexivity.
Qed.

Lemma persist_loop_manifest (io : PersistIO) (results : PyDict.t PipeResult)
    (global_scope : option string) (output_dir : string) (declared : PyDict.t string)
    (manifest : PyDict.t string) :
  NoDup (PyDict.keys declared) ->
  (forall n, In n (PyDict.keys declared) -> PyDict.get manifest n = None) ->
  forall n p,
    PyDict.get (fst (persist_loop io results global_scope output_dir declared manifest)) n = Some p
    <-> PyDict.get manifest n = Some p
        \/ In (OutputPersisted n p) (map (expected_entry io results global_scope output_dir) declared).
Proof.
  revert manifest.
  induction declared as [|[n0 p0] rest IH]; intros manifest Hnd Hfresh n p.
  - simpl. tauto.
  - simpl in Hnd. inversion Hnd as [|? ? Hn0 Hnd']; subst.
    assert (Hfresh' : forall n, In n (PyDict.keys rest) -> PyDict.get manifest n = None)
      by (intros; apply Hfresh; right; assumption).
    cbn [persist_loop map expected_entry].
    destruct (PyDict.get results (scoped_key global_scope n0)) as [r|]; simpl.
    + unfold persist_one.
      destruct (bind _ _) as [u|e]; simpl.
      * rewrite (IH _ Hnd').
        2:{ intros n' Hn'. rewrite get_set.
            destruct (String.eqb n' n0) eqn:E;
              [apply String.eqb_eq in E; subst; contradiction|].
            apply Hfresh'. exact Hn'. }
        rewrite get_set. destruct (String.eqb n n0) eqn:E.
        -- apply String.eqb_eq in E. subst n.
           rewrite (Hfresh n0 (or_introl eq_refl)).
           split.
           ++ intros [H|H]; [injection H as <-; right; left; reflexivity|].
              apply expected_persisted_name in H. contradiction.
           ++ intros [H|[H|H]]; [discriminate| |].
              ** injection H as <-. left. reflexivity.
              ** apply expected_persisted_name in H. contradiction.
        -- apply String.eqb_neq in E. split.
           ++ intros [H|H]; [left; exact H|right; right; exact H].
           ++ intros [H|[H|H]]; [left; exact H| |right; exact H].
              injection H as H _. congruence.
      * rewrite (IH _ Hnd' Hfresh'). split.
        -- intros [H|H]; [left; exact H|right; right; exact H].
        -- intros [H|[H|H]]; [left; exact H|discriminate|right; exact H].
    + rewrite (IH _ Hnd' Hfresh'). split.
      * intros [H|H]; [left; exact H|right; right; exact H].
      * intros [H|[H|H]]; [left; exact H|discriminate|right; exact H].
Qed.

(** C7: once the base output directory exists (or is created), [persist]
    returns normally, attempts every declared output independently (the
    fate of each one, missing, failed or persisted, depends only on that
    output and is logged in declaration order), and its manifest holds
    exactly the outputs that were persisted. *)
Theorem persist_isolates_outputs (io : PersistIO) (results : PyDict.t PipeResult)
    (workflow_model : WorkflowDefinition) (output_dir : string) (declared : PyDict.t string) :
  workflow_model.(spec).(spec_outputs) = Some declared ->
  NoDup (PyDict.keys declared) ->
  (io.(io_dir_exists) output_dir = true \/ io.(io_mkdir) output_dir = Ok tt) ->
  exists manifest log,
    OutputPersister_persist io results workflow_model output_dir = Ok (manifest, log)
    /\ log = map (expected_entry io results (output_scope workflow_model) output_dir) declared
    /\ (forall n p, PyDict.get manifest n = Some p <-> In (OutputPersisted n p) log).
Proof.
  intros Hout Hnd Hdir. unfold OutputPersister_persist. rewrite Hout.
  destruct declared as [|d ds].
  - exists [], []. split; [reflexivity|]. split; [reflexivity|].
    simpl. intros n p. split; [discriminate|tauto].
  - assert (Hbase : (if io.(io_dir_exists) output_dir then Ok tt
                     else match io.(io_mkdir) output_dir with
                          | Ok _ => Ok tt
                          | Raise e => Raise (PyExc "OutputPersisterError"
                                               ("Could not create base output directory " ++
                                                output_dir ++ ": " ++ e.(exc_msg)))
                          end) = Ok tt).
    { destruct Hdir as [H|H]; [rewrite H; reflexivity|].
      destruct (io_dir_exists io output_dir); [reflexivity|rewrite H; reflexivity]. }
    rewrite Hbase. cbn [bind].
    set (r := persist_loop io results (output_scope workflow_model) output_dir (d :: ds) []).
    exists (fst r), (snd r). split; [rewrite <- surjective_pairing; reflexivity|].
    unfold r. rewrite persist_loop_log. split; [reflexivity|].
    intros n p. rewrite (persist_loop_manifest _ _ _ _ _ _ Hnd) by reflexivity.
    simpl. split; [intros [H|H]; [discriminate|exact H]|intros H; right; exact H].
Qed.

Definition demo_io : PersistIO :=
  mkPersistIO (fun _ => true) (fun _ => Ok tt) (fun p => p)
    (fun _ p => if String.eqb p "/out/b.json"
                then Raise (PyExc "SerializerError" "cannot serialize") else Ok tt).

Definition demo_outputs : PyDict.t string :=
  [("a", "/out/a.json"); ("b", "/out/b.json"); ("c", "/out/c.json")].

Definition demo_results : PyDict.t PipeResult :=
  [("a", mkPipeResult (PInt 1)); ("b", mkPipeResult (PInt 2))].

Definition demo_workflow : WorkflowDefinition :=
  mkWorkflow "wf" (mkWorkflowSpec None None None (Some demo_outputs) []).

Lemma persist_isolates_outputs_witness :
  NoDup (PyDict.keys demo_outputs) /\
  exists manifest log,
    OutputPersister_persist demo_io demo_results demo_workflow "/out" = Ok (manifest, log)
    /\ log = map (expected_entry demo_io demo_results (output_scope demo_workflow) "/out")
               demo_outputs
    /\ (forall n p, PyDict.get manifest n = Some p <-> In (OutputPersisted n p) log).
Proof.
  assert (Hnd : NoDup (PyDict.keys demo_outputs)).
  { simpl. repeat constructor; simpl; intuition discriminate. }
  split; [exact Hnd|].
  apply (persist_isolates_outputs demo_io demo_results demo_workflow "/out" demo_outputs).
  - reflexivity.
  - exact Hnd.
  - left. reflexivity.
Defined.

Example persist_demo_log :
  OutputPersister_persist demo_io demo_results demo_workflow "/out"
  = Ok ([("a", "/out/a.json")],
        [OutputPersisted "a" "/out/a.json";
         OutputFailed "b" (PyExc "SerializerError" "cannot serialize");
         OutputMissing "c" "c"]).
Proof. reflexivity. Qed.

(** ** Pipeline build (C5) *)

(** When every step's PipeFunc can be created, the builder constructs the
    options of every step in declaration order; nothing in the loop looks
    at the step names. *)
Lemma build_steps_all_created (env : BuildEnv) (workflow : WorkflowDefinition)
    (steps : list StepDefinition) :
  (forall step, In step steps -> is_ok (create_pipe_func_from_step env step workflow) = true) ->
  fst (build_steps env workflow steps) = map (fun s => StepOptionsCreated s.(step_name)) steps
  /\ is_ok (snd (build_steps env workflow steps)) = true.
Proof.
  induction steps as [|s rest IH]; intros Hok; [split; reflexivity|].
  simpl. destruct (create_pipe_func_from_step env s workflow) as [f|e] eqn:E.
  - destruct IH as [IH1 IH2]; [intros; apply Hok; right; assumption|].
    destruct (build_steps env workflow rest) as [evs r]. simpl in *.
    rewrite IH1. split; [reflexivity|]. destruct r; [reflexivity|discriminate].
  - specialize (Hok s (or_introl eq_refl)). rewrite E in Hok. discriminate.
Qed.

Definition env_all_ok : BuildEnv := mkBuildEnv (fun _ => true) (fun _ => true) (fun _ => true).

(** A step declared as
<<
    - name: <name>
      func: tasks.run
      options: {output_name: <out>, map_mode: null}
>>
    Its options dump to [{"output_name": out}], which PipeFunc accepts. *)
Definition plain_step (name out : string) : StepDefinition :=
  mkStep name (Some "tasks.run") None None None None
    (Some (mkStepOptions (Some (OutStr out)) None None None None None None None None None None)).

Definition wf_duplicate_steps : WorkflowDefinition :=
  mkWorkflow "dup" (mkWorkflowSpec None None None None
                      [plain_step "step-one" "a"; plain_step "step-two" "b";
                       plain_step "step-one" "c"; plain_step "step-three" "d"]).

(** C5: [build] has no duplicate-name check. On a workflow whose steps are
    [step-one], [step-two], [step-one], [step-three] it constructs the
    options of every step, including [step-three] after the duplicate, and
    succeeds. *)
Theorem build_accepts_duplicate_step_names :
  fst (PipelineBuilder_build env_all_ok wf_duplicate_steps)
  = [StepOptionsCreated "step-one"; StepOptionsCreated "step-two";
     StepOptionsCreated "step-one"; StepOptionsCreated "step-three"]
  /\ is_ok (snd (PipelineBuilder_build env_all_ok wf_duplicate_steps)) = true.
Proof. split; reflexivity. Qed.

(** ** Failed runs (C1) *)

(** C1: when every stage up to execution succeeds and the execution stage
    ([pipeline.map] inside [PipelineExecutor.execute]) raises, the run
    writes [{run_dir}/summary.json] holding the tracker's summary with
    status FAILED and a non-empty error message, and only then re-raises a
    [WorkflowRunError] naming the run id. *)
Theorem execute_failure_saves_summary (svc : RunServices) (rid : string)
    (input_data : option (PyDict.t pyval)) (has_input_file : bool) (files : PyDict.t Summary)
    (wf : WorkflowDefinition) (rdir : string) (pl : Pipeline) (raw resolved : PyDict.t pyval)
    (e : py_exc) :
  svc.(svc_load) = Ok wf ->
  svc.(svc_setup_dirs) wf.(metadata_name) rid = Ok rdir ->
  svc.(svc_build) wf = Ok pl ->
  load_user_inputs svc input_data has_input_file = Ok raw ->
  InputResolver_resolve raw wf pl.(info_inputs) pl.(info_required_inputs) = Ok resolved ->
  svc.(svc_map) pl resolved = Raise e ->
  svc.(svc_write_ok) (rdir ++ "/summary.json") = true ->
  let '(files', evs, out) := execute_workflow svc rid input_data has_input_file files in
  exists s,
    PyDict.get files' (rdir ++ "/summary.json") = Some s
    /\ s.(run_id) = rid /\ s.(run_dir) = rdir /\ s.(status) = FAILED
    /\ (exists msg, s.(error_message) = Some msg /\ msg <> "")
    /\ out = Raise (PyExc "WorkflowRunError" ("Run '" ++ rid ++ "' failed."))
    /\ evs = [SummarySaved (rdir ++ "/summary.json");
              RunRaised (PyExc "WorkflowRunError" ("Run '" ++ rid ++ "' failed."))].
Proof.
  intros H1 H2 H3 H4 H5 H6 H7.
  unfold execute_workflow, run_try_block, mbind, lift, start_run, bind_summary_var, tracker_update.
  rewrite H1. cbn.
  rewrite H2. cbn.
  rewrite H3. cbn.
  rewrite H4. cbn.
  rewrite H5. cbn.
  unfold PipelineExecutor_execute. rewrite H6. cbn.
  unfold run_except_block, run_finally_block, deref_summary, SummaryPersister_save. cbn.
  rewrite H7. cbn.
  eexists. split; [rewrite get_set, String.eqb_refl; reflexivity|].
  do 3 (split; [reflexivity|]).
  split; [eexists; split; [reflexivity|discriminate]|].
  split; reflexivity.
Qed.

Definition demo_workflow_def : WorkflowDefinition :=
  mkWorkflow "demo" (mkWorkflowSpec None None None None []).

Definition failing_services : RunServices :=
  mkServices (Ok demo_workflow_def) (fun name r => Ok ("/runs/" ++ name ++ "/" ++ r))
    (fun _ => Ok (mkPipeline ["x"] ["x"])) (Ok [])
    (fun _ _ => Raise (PyExc "ZeroDivisionError" "division by zero"))
    (fun _ _ _ => Ok []) (fun _ => true).

Lemma execute_failure_saves_summary_witness :
  let svc := failing_services in
  let rid := "run_20261015_093000_a1b2c3" in
  let rdir := "/runs/demo/run_20261015_093000_a1b2c3" in
  svc.(svc_load) = Ok demo_workflow_def
  /\ svc.(svc_setup_dirs) demo_workflow_def.(metadata_name) rid = Ok rdir
  /\ svc.(svc_build) demo_workflow_def = Ok (mkPipeline ["x"] ["x"])
  /\ load_user_inputs svc (Some [("x", PInt 1)]) false = Ok [("x", PInt 1)]
  /\ InputResolver_resolve [("x", PInt 1)] demo_workflow_def ["x"] ["x"] = Ok [("x", PInt 1)]
  /\ svc.(svc_map) (mkPipeline ["x"] ["x"]) [("x", PInt 1)]
     = Raise (PyExc "ZeroDivisionError" "division by zero")
  /\ svc.(svc_write_ok) (rdir ++ "/summary.json") = true
  /\ let '(files', evs, out) := execute_workflow svc rid (Some [("x", PInt 1)]) false [] in
     exists s,
       PyDict.get files' (rdir ++ "/summary.json") = Some s
       /\ s.(run_id) = rid /\ s.(run_dir) = rdir /\ s.(status) = FAILED
       /\ (exists msg, s.(error_message) = Some msg /\ msg <> "")
       /\ out = Raise (PyExc "WorkflowRunError" ("Run '" ++ rid ++ "' failed."))
       /\ evs = [SummarySaved (rdir ++ "/summary.json");
                 RunRaised (PyExc "WorkflowRunError" ("Run '" ++ rid ++ "' failed."))].
Proof.
  cbv zeta.
  do 7 (split; [reflexivity|]).
  apply (execute_failure_saves_summary failing_services "run_20261015_093000_a1b2c3"
           (Some [("x", PInt 1)]) false [] demo_workflow_def
           "/runs/demo/run_20261015_093000_a1b2c3" (mkPipeline ["x"] ["x"])
           [("x", PInt 1)] [("x", PInt 1)]
           (PyExc "ZeroDivisionError" "division by zero"));
    reflexivity.
Defined.

Lemma run_try_block_started (svc : RunServices) (rid : string)
    (input_data : option (PyDict.t pyval)) (has_input_file : bool)
    (wf : WorkflowDefinition) (rdir : string) (st0 : CState) :
  svc.(svc_load) = Ok wf ->
  svc.(svc_setup_dirs) wf.(metadata_name) rid = Ok rdir ->
  let (st1, r) := run_try_block svc rid input_data has_input_file st0 in
  st1.(summary_var) = TrackerSummary /\ st1.(summary_files) = st0.(summary_files) /\
  exists s, st1.(tracker) = Some s /\ s.(run_id) = rid /\ s.(run_dir) = rdir /\
    (r = Ok tt -> s.(status) = SUCCESS /\ s.(end_time_set) = true) /\
    (is_ok r = false -> s.(status) = RUNNING).
Proof.
  intros H1 H2.
  unfold run_try_block, mbind, lift, start_run, bind_summary_var, tracker_update.
  rewrite H1. cbn. rewrite H2. cbn.
  repeat match goal with
         | |- context [match ?o with Ok _ => _ | Raise _ => _ end] =>
             destruct o; cbn
         end;
  (split; [reflexivity|split; [reflexivity|]]; eexists; repeat split;
   try reflexivity; try discriminate).
Qed.

(** Once the run directory exists and the run is started, [summary.json]
    is written whatever later stage fails: a FAILED summary with a
    [WorkflowRunError], or the SUCCESS summary that is also returned. *)
Lemma execute_started_run_saves_summary (svc : RunServices) (rid : string)
    (input_data : option (PyDict.t pyval)) (has_input_file : bool) (files : PyDict.t Summary)
    (wf : WorkflowDefinition) (rdir : string) :
  svc.(svc_load) = Ok wf ->
  svc.(svc_setup_dirs) wf.(metadata_name) rid = Ok rdir ->
  svc.(svc_write_ok) (rdir ++ "/summary.json") = true ->
  let '(files', evs, out) := execute_workflow svc rid input_data has_input_file files in
  exists s,
    PyDict.get files' (rdir ++ "/summary.json") = Some s
    /\ s.(run_id) = rid /\ s.(end_time_set) = true
    /\ ((s.(status) = FAILED
         /\ out = Raise (PyExc "WorkflowRunError" ("Run '" ++ rid ++ "' failed."))
         /\ evs = [SummarySaved (rdir ++ "/summary.json");
                   RunRaised (PyExc "WorkflowRunError" ("Run '" ++ rid ++ "' failed."))])
        \/ (s.(status) = SUCCESS /\ out = Ok (Some s)
            /\ evs = [SummarySaved (rdir ++ "/summary.json"); RunReturned])).
Proof.
  intros H1 H2 H3.
  unfold execute_workflow.
  pose proof (run_try_block_started svc rid input_data has_input_file wf rdir
                (mkCState None NoSummary files) H1 H2) as Hinv.
  destruct (run_try_block svc rid input_data has_input_file (mkCState None NoSummary files))
    as [st1 r].
  destruct Hinv as (Hv & Hf & s & Ht & Hid & Hdir & Hok & Hfail).
  destruct r as [[]|e].
  - destruct (Hok eq_refl) as [Hs He].
    unfold run_finally_block, deref_summary, SummaryPersister_save.
    unfold run_finally_block, deref_summary, SummaryPersister_save.
    rewrite Hv, Ht. cbn. rewrite Hdir, H3. cbn.
    exists s. rewrite get_set, String.eqb_refl.
    repeat split; auto.
  - unfold run_except_block. rewrite Ht. cbn.
    unfold run_finally_block, deref_summary, SummaryPersister_save. cbn.
    rewrite Hv. cbn. rewrite Hdir, H3. cbn.
    eexists. rewrite get_set, String.eqb_refl.
    repeat split; auto.
Qed.

(** A failure to write [summary.json] is swallowed by the [finally] block:
    no summary file changes, and the run still raises [WorkflowRunError]
    or returns its SUCCESS summary. *)
Lemma execute_summary_save_failure_swallowed (svc : RunServices) (rid : string)
    (input_data : option (PyDict.t pyval)) (has_input_file : bool) (files : PyDict.t Summary)
    (wf : WorkflowDefinition) (rdir : string) :
  svc.(svc_load) = Ok wf ->
  svc.(svc_setup_dirs) wf.(metadata_name) rid = Ok rdir ->
  svc.(svc_write_ok) (rdir ++ "/summary.json") = false ->
  let '(files', evs, out) := execute_workflow svc rid input_data has_input_file files in
  files' = files
  /\ exists e_sum,
       (out = Raise (PyExc "WorkflowRunError" ("Run '" ++ rid ++ "' failed."))
        /\ evs = [SummarySaveFailed e_sum;
                  RunRaised (PyExc "WorkflowRunError" ("Run '" ++ rid ++ "' failed."))])
       \/ (exists s, out = Ok (Some s) /\ s.(status) = SUCCESS
                     /\ evs = [SummarySaveFailed e_sum; RunReturned]).
Proof.
  intros H1 H2 H3.
  unfold execute_workflow.
  pose proof (run_try_block_started svc rid input_data has_input_file wf rdir
                (mkCState None NoSummary files) H1 H2) as Hinv.
  destruct (run_try_block svc rid input_data has_input_file (mkCState None NoSummary files))
    as [st1 r].
  destruct Hinv as (Hv & Hf & s & Ht & Hid & Hdir & Hok & Hfail).
  destruct r as [[]|e].
  - destruct (Hok eq_refl) as [Hs He].
    unfold run_finally_block, deref_summary, SummaryPersister_save.
    rewrite Hv, Ht. cbn. rewrite Hdir, H3. cbn.
    split; [exact Hf|]. eexists. right. exists s. rewrite Hv, Ht. repeat split; auto.
  - unfold run_except_block. rewrite Ht. cbn.
    unfold run_finally_block, deref_summary, SummaryPersister_save. cbn.
    rewrite Hv. cbn. rewrite Hdir, H3. cbn.
    split; [exact Hf|]. eexists. left. split; reflexivity.
Qed.

(** A failure before the run is started (loading the definition or
    creating the run directories) escapes as the AttributeError of the
    [except] block; no summary is written. *)
Lemma execute_early_failure_no_summary (svc : RunServices) (rid : string)
    (input_data : option (PyDict.t pyval)) (has_input_file : bool) (files : PyDict.t Summary)
    (e : py_exc) :
  (svc.(svc_load) = Raise e
   \/ exists wf, svc.(svc_load) = Ok wf /\ svc.(svc_setup_dirs) wf.(metadata_name) rid = Raise e) ->
  execute_workflow svc rid input_data has_input_file files
  = (files, [NoSummaryToSave;
             RunRaised (PyExc "AttributeError" "'NoneType' object has no attribute 'start_time'")],
     Raise (PyExc "AttributeError" "'NoneType' object has no attribute 'start_time'")).
Proof.
  intros [H1 | (wf & H1 & H2)];
    unfold execute_workflow, run_try_block, mbind, lift; rewrite H1; cbn;
    [|rewrite H2; cbn]; reflexivity.
Qed.

(** The success path: the returned summary is the saved one, with the raw
    user inputs, the resolved inputs and the persisted manifest. *)
Lemma execute_success_summary (svc : RunServices) (rid : string)
    (input_data : option (PyDict.t pyval)) (has_input_file : bool) (files : PyDict.t Summary)
    (wf : WorkflowDefinition) (rdir : string) (pl : Pipeline)
    (raw resolved results : PyDict.t pyval) (manifest : PyDict.t string) :
  svc.(svc_load) = Ok wf ->
  svc.(svc_setup_dirs) wf.(metadata_name) rid = Ok rdir ->
  svc.(svc_build) wf = Ok pl ->
  load_user_inputs svc input_data has_input_file = Ok raw ->
  InputResolver_resolve raw wf pl.(info_inputs) pl.(info_required_inputs) = Ok resolved ->
  svc.(svc_map) pl resolved = Ok results ->
  svc.(svc_persist) results wf (rdir ++ "/outputs") = Ok manifest ->
  svc.(svc_write_ok) (rdir ++ "/summary.json") = true ->
  let s := mkSummary rid wf.(metadata_name) SUCCESS true raw resolved manifest rdir None in
  execute_workflow svc rid input_data has_input_file files
  = (PyDict.set files (rdir ++ "/summary.json") s,
     [SummarySaved (rdir ++ "/summary.json"); RunReturned], Ok (Some s)).
Proof.
  intros H1 H2 H3 H4 H5 H6 H7 H8.
  unfold execute_workflow, run_try_block, mbind, lift, start_run, bind_summary_var, tracker_update.
  rewrite H1. cbn. rewrite H2. cbn. rewrite H3. cbn. rewrite H4. cbn. rewrite H5. cbn.
  unfold PipelineExecutor_execute. rewrite H6. cbn. rewrite H7. cbn.
  unfold run_finally_block, deref_summary, SummaryPersister_save. cbn.
  rewrite H8. reflexivity.
Qed.

(** ** Step option resolvers *)

Lemma input_renames_get (ins : PyDict.t step_input) (acc : PyDict.t string) :
  NoDup (PyDict.keys ins) ->
  (forall n v, In (n, v) ins -> exists s, v = SIStr s) ->
  exists r, input_renames ins acc = Ok r /\
  forall x, PyDict.get r x =
    match PyDict.get ins x with
    | Some (SIStr s) =>
        if String.prefix "$global." s && negb (String.eqb x (after_first_dot s))
        then Some (after_first_dot s) else PyDict.get acc x
    | _ => PyDict.get acc x
    end.
Proof.
  revert acc. induction ins as [|[n v] ins IH]; intros acc Hnd Hs.
  - exists acc. split; reflexivity.
  - inversion Hnd as [|? ? Hn Hnd']; subst.
    destruct (Hs n v (or_introl eq_refl)) as [s ->].
    assert (Hs' : forall n' v', In (n', v') ins -> exists s', v' = SIStr s')
      by (intros n' v' Hi; exact (Hs n' v' (or_intror Hi))).
    simpl. destruct (String.prefix "$global." s) eqn:Ep.
    + destruct (String.eqb n (after_first_dot s)) eqn:En.
      * destruct (IH acc Hnd' Hs') as [r [Hr Hget]]. exists r. split; [exact Hr|].
        intros x. rewrite Hget. simpl.
        destruct (String.eqb x n) eqn:Ex; [|reflexivity].
        apply String.eqb_eq in Ex. subst x.
        rewrite (get_not_in ins n Hn), En, Ep. reflexivity.
      * destruct (IH (PyDict.set acc n (after_first_dot s)) Hnd' Hs') as [r [Hr Hget]].
        exists r. split; [exact Hr|].
        intros x. rewrite Hget, get_set. simpl.
        destruct (String.eqb x n) eqn:Ex.
        -- apply String.eqb_eq in Ex. subst x.
           rewrite (get_not_in ins n Hn), En, Ep. reflexivity.
        -- reflexivity.
    + destruct (IH acc Hnd' Hs') as [r [Hr Hget]]. exists r. split; [exact Hr|].
      intros x. rewrite Hget. simpl.
      destruct (String.eqb x n) eqn:Ex; [|reflexivity].
      apply String.eqb_eq in Ex. subst x.
      rewrite (get_not_in ins n Hn), Ep. reflexivity.
Qed.

Lemma keys_set_In {V : Type} (d : PyDict.t V) (k x : string) (v : V) :
  In x (PyDict.keys (PyDict.set d k v)) <-> x = k \/ In x (PyDict.keys d).
Proof.
  unfold PyDict.keys. induction d as [|[k' v'] d IH]; simpl.
  - intuition.
  - destruct (String.eqb k k') eqn:E; simpl.
    + apply String.eqb_eq in E. subst. intuition.
    + rewrite IH. intuition.
Qed.

Lemma keys_set_NoDup {V : Type} (d : PyDict.t V) (k : string) (v : V) :
  NoDup (PyDict.keys d) -> NoDup (PyDict.keys (PyDict.set d k v)).
Proof.
  induction d as [|[k' v'] d IH]; simpl; intros Hnd.
  - constructor; [intros []|constructor].
  - inversion Hnd as [|? ? Hn Hnd']; subst.
    destruct (String.eqb k k') eqn:E; simpl; [exact Hnd|].
    constructor; [|exact (IH Hnd')].
    rewrite keys_set_In. intros [Hk|Hk]; [|exact (Hn Hk)].
    subst. rewrite String.eqb_refl in E. discriminate.
Qed.

Lemma input_renames_NoDup (ins : PyDict.t step_input) (acc r : PyDict.t string) :
  NoDup (PyDict.keys acc) -> input_renames ins acc = Ok r -> NoDup (PyDict.keys r).
Proof.
  revert acc. induction ins as [|[n v] ins IH]; intros acc Hnd Hr; simpl in Hr.
  - injection Hr as <-. exact Hnd.
  - destruct v as [i|s|z|f]; try discriminate.
    destruct (String.prefix "$global." s); [|exact (IH acc Hnd Hr)].
    destruct (String.eqb n (after_first_dot s)); [exact (IH acc Hnd Hr)|].
    exact (IH _ (keys_set_NoDup acc _ _ Hnd) Hr).
Qed.

Lemma input_renames_non_string (ins : PyDict.t step_input) (acc : PyDict.t string) :
  (exists n v, In (n, v) ins /\ forall s, v <> SIStr s) ->
  exists msg, input_renames ins acc = Raise (PyExc "AttributeError" msg).
Proof.
  revert acc. induction ins as [|[n v] ins IH]; intros acc (n' & v' & Hin & Hv).
  - destruct Hin.
  - simpl. destruct Hin as [Heq|Hin].
    + injection Heq as -> ->.
      destruct v' as [i|s|z|f]; try (eexists; reflexivity).
      exfalso. exact (Hv s eq_refl).
    + destruct v as [i|s|z|f]; try (eexists; reflexivity).
      destruct (String.prefix "$global." s);
        [destruct (String.eqb n (after_first_dot s))|]; apply IH; eauto.
Qed.

Lemma fold_defaults_get (params current : PyDict.t pyval) (x : string) :
  PyDict.get (fold_left (fun acc kv => if PyDict.mem (fst kv) acc then acc
                                       else PyDict.set acc (fst kv) (snd kv)) params current) x
  = match PyDict.get current x with Some v => Some v | None => PyDict.get params x end.
Proof.
  revert current. induction params as [|[k v] params IH]; intros current; simpl.
  - destruct (PyDict.get current x); reflexivity.
  - rewrite IH. rewrite mem_get.
    destruct (PyDict.get current k) eqn:Ek.
    + destruct (String.eqb x k) eqn:Ex; [|reflexivity].
      apply String.eqb_eq in Ex. subst x. rewrite Ek. reflexivity.
    + rewrite get_set. destruct (String.eqb x k) eqn:Ex; [|reflexivity].
      apply String.eqb_eq in Ex. subst x. rewrite Ek. reflexivity.
Qed.

(** The fields that only [step.options] sets survive every resolver. *)
Lemma create_pipe_func_from_step_ok (env : BuildEnv) (step : StepDefinition)
    (workflow : WorkflowDefinition) (fo : FinalOptions) :
  create_pipe_func_from_step env step workflow = Ok fo ->
  exists p o2,
    function_path step workflow = Ok p /\ env.(import_ok) p = true
    /\ resolve_input_renames
         (mkFinalOptions (Some p) (initial_final_options step).(fo_renames)
            (initial_final_options step).(fo_defaults) (initial_final_options step).(fo_resources)
            (initial_final_options step).(fo_scope) (initial_final_options step).(fo_mapspec)
            (initial_final_options step).(fo_output_name) (initial_final_options step).(fo_rest))
         step = Ok o2
    /\ fo = resolve_step_scope (resolve_step_resources (resolve_input_defaults o2 step) step workflow) step
    /\ pipefunc_signature_ok fo = true /\ env.(pipefunc_ok) fo = true.
Proof.
  unfold create_pipe_func_from_step, resolve_function_path.
  destruct (function_path step workflow) as [p|e]; simpl; [|discriminate].
  destruct (import_ok env p) eqn:Ei; simpl; [|discriminate].
  destruct (resolve_input_renames _ step) as [o2|e] eqn:Er; simpl; [|discriminate].
  destruct (fo_func _); [|discriminate].
  destruct (pipefunc_signature_ok _) eqn:Es; [|discriminate].
  destruct (pipefunc_ok env _) eqn:Ep; [|discriminate].
  intros H. injection H as <-.
  exists p, o2. repeat split; auto.
Qed.

Lemma input_renames_ok_strings (ins : PyDict.t step_input) (acc r : PyDict.t string) :
  input_renames ins acc = Ok r -> forall n v, In (n, v) ins -> exists s, v = SIStr s.
Proof.
  revert acc. induction ins as [|[n v] ins IH]; intros acc Hr n' v' Hin; [destruct Hin|].
  simpl in Hr. destruct v as [i|s|z|f]; try discriminate.
  destruct Hin as [Heq|Hin]; [inversion Heq; subst; eexists; reflexivity|].
  destruct (String.prefix "$global." s);
    [destruct (String.eqb n (after_first_dot s))|]; eapply IH; eauto.
Qed.

Lemma resolve_input_renames_fields (options o2 : FinalOptions) (step : StepDefinition) :
  resolve_input_renames options step = Ok o2 ->
  o2.(fo_func) = options.(fo_func) /\ o2.(fo_defaults) = options.(fo_defaults)
  /\ o2.(fo_mapspec) = options.(fo_mapspec) /\ o2.(fo_output_name) = options.(fo_output_name).
Proof.
  unfold resolve_input_renames.
  destruct (match step_inputs step with Some ((_ :: _) as ins) => input_renames ins [] | _ => Ok [] end)
    as [[|kv rn]|e]; simpl; intros H; try discriminate; injection H as <-; repeat split.
Qed.

Lemma resolve_later_fields (o : FinalOptions) (step : StepDefinition) (workflow : WorkflowDefinition) :
  let o' := resolve_step_scope (resolve_step_resources o step workflow) step in
  o'.(fo_func) = o.(fo_func) /\ o'.(fo_renames) = o.(fo_renames)
  /\ o'.(fo_defaults) = o.(fo_defaults)
  /\ o'.(fo_mapspec) = o.(fo_mapspec) /\ o'.(fo_output_name) = o.(fo_output_name).
Proof.
  cbv zeta. unfold resolve_step_scope, resolve_step_resources.
  destruct (resolve_resources _ step); destruct (step_options step) as [so|];
    try destruct (scope so); repeat split.
Qed.

Lemma resolve_input_defaults_fields (o : FinalOptions) (step : StepDefinition) :
  let o' := resolve_input_defaults o step in
  o'.(fo_func) = o.(fo_func) /\ o'.(fo_renames) = o.(fo_renames)
  /\ o'.(fo_mapspec) = o.(fo_mapspec) /\ o'.(fo_output_name) = o.(fo_output_name)
  /\ forall x, (match o'.(fo_defaults) with Some d => PyDict.get d x | None => None end)
     = match (match o.(fo_defaults) with Some d => PyDict.get d x | None => None end) with
       | Some v => Some v
       | None => PyDict.get (match step.(step_parameters) with Some p => p | None => [] end) x
       end.
Proof.
  cbv zeta. unfold resolve_input_defaults.
  destruct (step_parameters step) as [[|kv params]|].
  - repeat split. intros x. destruct (fo_defaults o) as [d|]; [destruct (PyDict.get d x)|]; reflexivity.
  - repeat split. intros x. cbn [fo_defaults]. rewrite fold_defaults_get.
    destruct (fo_defaults o) as [d|]; [|reflexivity].
    destruct (PyDict.get d x); reflexivity.
  - repeat split. intros x. destruct (fo_defaults o) as [d|]; [destruct (PyDict.get d x)|]; reflexivity.
Qed.

(** A built step's output name and mapspec are those of [step.options]
    alone: the builder never reads [step.output_name] and never synthesizes
    a mapspec; its function is the declared or defaulted path. *)
Lemma build_step_output_and_mapspec_from_options (env : BuildEnv) (step : StepDefinition)
    (workflow : WorkflowDefinition) (fo : FinalOptions) :
  create_pipe_func_from_step env step workflow = Ok fo ->
  fo.(fo_output_name) = match step.(step_options) with Some o => o.(output_name) | None => None end
  /\ fo.(fo_mapspec) = match step.(step_options) with Some o => o.(mapspec) | None => None end
  /\ exists p, function_path step workflow = Ok p /\ fo.(fo_func) = Some p.
Proof.
  intros H. destruct (create_pipe_func_from_step_ok env step workflow fo H)
    as (p & o2 & Hp & Hi & Hr & -> & Hok).
  destruct (resolve_input_renames_fields _ _ _ Hr) as (Hf & Hd & Hm & Ho).
  destruct (resolve_later_fields (resolve_input_defaults o2 step) step workflow)
    as (Hf' & _ & _ & Hm' & Ho').
  destruct (resolve_input_defaults_fields o2 step) as (Hf'' & _ & Hm'' & Ho'' & _).
  rewrite Hm', Ho', Hf', Hm'', Ho'', Hf'', Hm, Ho, Hf.
  unfold initial_final_options. simpl.
  destruct (step_options step); simpl; split; try split; eauto.
Qed.

(** When a step builds, its [defaults] give [step.options.defaults]
    precedence over [step.parameters]: a parameter only fills a name the
    options leave unset. *)
Lemma build_step_option_defaults_win (env : BuildEnv) (step : StepDefinition)
    (workflow : WorkflowDefinition) (fo : FinalOptions) (x : string) :
  create_pipe_func_from_step env step workflow = Ok fo ->
  (match fo.(fo_defaults) with Some d => PyDict.get d x | None => None end)
  = match (match step.(step_options) with
           | Some o => match o.(defaults) with Some d => PyDict.get d x | None => None end
           | None => None
           end) with
    | Some v => Some v
    | None => PyDict.get (match step.(step_parameters) with Some p => p | None => [] end) x
    end.
Proof.
  intros H. destruct (create_pipe_func_from_step_ok env step workflow fo H)
    as (p & o2 & Hp & Hi & Hr & -> & Hok).
  destruct (resolve_input_renames_fields _ _ _ Hr) as (_ & Hd & _ & _).
  destruct (resolve_later_fields (resolve_input_defaults o2 step) step workflow)
    as (_ & _ & Hd' & _ & _).
  destruct (resolve_input_defaults_fields o2 step) as (_ & _ & _ & _ & Hdef).
  rewrite Hd', Hdef, Hd. unfold initial_final_options. simpl.
  destruct (step_options step); reflexivity.
Qed.

(** When a step builds, each input given as ["$global.<name>"] is renamed to
    [<name>] (unless that is its own name), overriding a rename of
    [step.options]; other names keep the options' renames. *)
Lemma build_step_global_renames (env : BuildEnv) (step : StepDefinition)
    (workflow : WorkflowDefinition) (fo : FinalOptions) (ins : PyDict.t step_input) (x : string) :
  create_pipe_func_from_step env step workflow = Ok fo ->
  step.(step_inputs) = Some ins -> NoDup (PyDict.keys ins) ->
  let old := match step.(step_options) with
             | Some o => match o.(renames) with Some r => PyDict.get r x | None => None end
             | None => None
             end in
  (match fo.(fo_renames) with Some r => PyDict.get r x | None => None end)
  = match PyDict.get ins x with
    | Some (SIStr s) =>
        if String.prefix "$global." s && negb (String.eqb x (after_first_dot s))
        then Some (after_first_dot s) else old
    | _ => old
    end.
Proof.
  intros H Hins Hnd old.
  destruct (create_pipe_func_from_step_ok env step workflow fo H)
    as (p & o2 & Hp & Hi & Hr & -> & Hok).
  destruct (resolve_later_fields (resolve_input_defaults o2 step) step workflow)
    as (_ & Hrn & _ & _ & _).
  destruct (resolve_input_defaults_fields o2 step) as (_ & Hrn' & _ & _ & _).
  rewrite Hrn, Hrn'.
  assert (Hold : (match (initial_final_options step).(fo_renames) with
                  | Some r => PyDict.get r x | None => None end) = old)
    by (unfold initial_final_options, old; destruct (step_options step); reflexivity).
  clearbody old. subst old.
  unfold resolve_input_renames in Hr. rewrite Hins in Hr.
  destruct ins as [|kv ins'] eqn:Eins.
  - simpl in Hr. injection Hr as <-. reflexivity.
  - rewrite <- Eins in Hr, Hnd |- *.
    destruct (input_renames ins []) as [r|e] eqn:Er; simpl in Hr; [|discriminate].
    destruct (input_renames_get ins [] Hnd (input_renames_ok_strings ins [] r Er))
      as [r' [Hr' Hget]].
    rewrite Er in Hr'. injection Hr' as <-.
    specialize (Hget x). simpl in Hget.
    destruct r as [|kv' r0] eqn:Erl.
    + injection Hr as <-. simpl.
      destruct (PyDict.get ins x) as [[i|s|z|f]|]; try reflexivity.
      destruct (String.prefix "$global." s && negb (String.eqb x (after_first_dot s)));
        [discriminate|reflexivity].
    + rewrite <- Erl in Hr, Hget, Er.
      injection Hr as <-. simpl.
      assert (Hndr : NoDup (PyDict.keys r))
        by (apply (input_renames_NoDup ins [] r); [apply NoDup_nil|exact Er]).
      destruct (fo_renames (initial_final_options step)) as [old|].
      * rewrite get_update by exact Hndr. rewrite Hget.
        destruct (PyDict.get ins x) as [[i|s|z|f]|]; try reflexivity;
        destruct (String.prefix "$global." s && negb (String.eqb x (after_first_dot s)));
          reflexivity.
      * rewrite Hget.
        destruct (PyDict.get ins x) as [[i|s|z|f]|]; try reflexivity;
        destruct (String.prefix "$global." s && negb (String.eqb x (after_first_dot s)));
          reflexivity.
Qed.

(** A step with an input value that is not a string (an [InputItem]
    mapping, an int or a float) cannot be built once its function imports:
    the renames resolver calls [startswith] on it. *)
Lemma build_step_non_string_input_fails (env : BuildEnv) (step : StepDefinition)
    (workflow : WorkflowDefinition) (p : string) (ins : PyDict.t step_input) :
  function_path step workflow = Ok p -> env.(import_ok) p = true ->
  step.(step_inputs) = Some ins ->
  (exists n v, In (n, v) ins /\ forall s, v <> SIStr s) ->
  exists msg, create_pipe_func_from_step env step workflow
    = Raise (PyExc "PipelineBuildError"
               ("Error applying step option resolver 'resolve_input_renames' for step '"
                ++ step.(step_name) ++ "': " ++ msg)).
Proof.
  intros Hp Hi Hins Hbad.
  destruct (input_renames_non_string ins [] Hbad) as [msg Hmsg].
  exists msg.
  unfold create_pipe_func_from_step, resolve_function_path. rewrite Hp. simpl. rewrite Hi. simpl.
  unfold resolve_input_renames. rewrite Hins.
  destruct ins as [|kv ins']; [destruct Hbad as (? & ? & [] & _)|].
  rewrite Hmsg. reflexivity.
Qed.

(** [build] stops at the first step that fails: the steps before it and
    that step are started, none after, and its error is the outcome. *)
Lemma build_steps_first_failure (env : BuildEnv) (workflow : WorkflowDefinition)
    (pre : list StepDefinition) (step : StepDefinition) (post : list StepDefinition) (e : py_exc) :
  (forall s, In s pre -> exists fo, create_pipe_func_from_step env s workflow = Ok fo) ->
  create_pipe_func_from_step env step workflow = Raise e ->
  build_steps env workflow (pre ++ step :: post)
  = (map (fun s => StepOptionsCreated s.(step_name)) (pre ++ [step]), Raise e).
Proof.
  intros Hpre Hstep. induction pre as [|s pre IH]; simpl.
  - rewrite Hstep. reflexivity.
  - destruct (Hpre s (or_introl eq_refl)) as [fo Hfo]. rewrite Hfo.
    rewrite IH by (intros s' Hs'; exact (Hpre s' (or_intror Hs'))).
    reflexivity.
Qed.

(** The resolvers never touch the keys that go straight to PipeFunc. *)
Lemma resolvers_keep_rest (o o2 : FinalOptions) (step : StepDefinition)
    (workflow : WorkflowDefinition) :
  resolve_input_renames o step = Ok o2 ->
  (resolve_step_scope (resolve_step_resources (resolve_input_defaults o2 step) step workflow)
     step).(fo_rest) = o.(fo_rest).
Proof.
  intros H.
  assert (H2 : o2.(fo_rest) = o.(fo_rest)).
  { revert H. unfold resolve_input_renames.
    destruct (match step_inputs step with Some ((_ :: _) as ins) => input_renames ins [] | _ => Ok [] end)
      as [[|kv rn]|e]; simpl; intros H; try discriminate; injection H as <-; reflexivity. }
  rewrite <- H2. unfold resolve_step_scope, resolve_step_resources, resolve_input_defaults.
  destruct (step_parameters step) as [[|kv params]|];
    destruct (resolve_resources _ step); destruct (step_options step) as [so|];
    try destruct (scope so); reflexivity.
Qed.

(** Every failure of [_create_pipe_func_from_step] is a PipelineBuildError. *)
Lemma create_pipe_func_from_step_raise (env : BuildEnv) (step : StepDefinition)
    (workflow : WorkflowDefinition) (e : py_exc) :
  create_pipe_func_from_step env step workflow = Raise e -> e.(exc_type) = "PipelineBuildError".
Proof.
  unfold create_pipe_func_from_step, wrap_resolver.
  destruct (resolve_function_path env _ step workflow) as [o1|e1]; simpl;
    [|intros H; injection H as <-; reflexivity].
  destruct (resolve_input_renames o1 step) as [o2|e2]; simpl;
    [|intros H; injection H as <-; reflexivity].
  destruct (fo_func _); [|intros H; injection H as <-; reflexivity].
  destruct (_ && _); [discriminate|intros H; injection H as <-; reflexivity].
Qed.

(** A step without options, or whose options keep a [map_mode] (the
    default is BROADCAST), set [advanced_options] or leave [output_name]
    unset, never builds: PipeFunc's signature rejects the options that
    [_create_pipe_func_from_step] passes on, and the builder re-raises a
    PipelineBuildError. *)
Lemma build_step_rejected_by_pipefunc_signature (env : BuildEnv) (step : StepDefinition)
    (workflow : WorkflowDefinition) :
  (step.(step_options) = None
   \/ exists o, step.(step_options) = Some o
                /\ (o.(map_mode) <> None \/ o.(opt_advanced_options) <> None \/ o.(output_name) = None)) ->
  exists msg, create_pipe_func_from_step env step workflow = Raise (PyExc "PipelineBuildError" msg).
Proof.
  intros Hopt.
  destruct (create_pipe_func_from_step env step workflow) as [fo|e] eqn:E.
  - exfalso.
    destruct (create_pipe_func_from_step_ok env step workflow fo E)
      as (p & o2 & _ & _ & Hr & Hfo & Hs & _).
    pose proof (resolvers_keep_rest _ o2 step workflow Hr) as Hrest.
    destruct (resolve_input_renames_fields _ o2 step Hr) as (_ & _ & _ & Hon).
    destruct (resolve_input_defaults_fields o2 step) as (_ & _ & _ & Hon' & _).
    destruct (resolve_later_fields (resolve_input_defaults o2 step) step workflow)
      as (_ & _ & _ & _ & Hon'').
    rewrite <- Hfo in Hrest, Hon''. rewrite Hon', Hon in Hon''.
    cbn [fo_rest fo_output_name] in Hrest, Hon''.
    unfold pipefunc_signature_ok in Hs. rewrite Hrest, Hon'' in Hs.
    unfold initial_final_options in Hs.
    destruct Hopt as [Hn|(o & Ho & Hc)].
    + rewrite Hn in Hs. discriminate.
    + rewrite Ho in Hs. cbn in Hs.
      destruct (map_mode o), (opt_advanced_options o), (output_name o);
        try discriminate; destruct Hc as [Hc|[Hc|Hc]]; congruence.
  - pose proof (create_pipe_func_from_step_raise env step workflow e E) as Ht.
    destruct e as [t m]. cbn in Ht. subst t. exists m. reflexivity.
Qed.


(** ** Schema mapspec synthesis: the other modes and the classification *)

(** In zip mode every iterable source and the output share the one symbol
    [i], whatever the number of iterable inputs. *)
Lemma schema_zip_mapspec (self : StepDefinition) (ins : PyDict.t step_input)
    (out : string) (o : StepOptions) :
  self.(step_options) = Some o -> truthy_str o.(mapspec) = false ->
  o.(map_mode) = Some ZIP ->
  self.(step_inputs) = Some ins -> self.(step_output_name) = Some out -> out <> "" ->
  fst (classify_inputs ins [] []) <> [] ->
  get_pipefunc_mapspec self =
  Ok (Some (String.concat ", "
              (map (fun s => index_expr s "i") (PyDict.values (fst (classify_inputs ins [] [])))
               ++ snd (classify_inputs ins [] []))%list
            ++ " -> " ++ index_expr out "i")).
Proof.
  intros Ho Hm Hmode Hins Hout Hne Hit.
  unfold get_pipefunc_mapspec, explicit_mapspec.
  rewrite Ho, Hm, Hins, Hout, Hmode.
  assert (Htr : truthy_str (Some out) = true).
  { simpl. destruct (String.eqb out "") eqn:E; [apply String.eqb_eq in E; contradiction|reflexivity]. }
  rewrite Htr. simpl negb. cbv iota.
  destruct ins as [|x ins']; [simpl in Hit; contradiction|].
  destruct (fst (classify_inputs (x :: ins') [] [])) as [|y it'] eqn:Eit; [contradiction|].
  reflexivity.
Qed.

(** Without an explicit mapspec, nothing is synthesized when the step has
    no inputs, no output name, or no iterable input. *)
Lemma schema_mapspec_skipped (self : StepDefinition) :
  (self.(step_options) = None
   \/ exists o, self.(step_options) = Some o /\ truthy_str o.(mapspec) = false) ->
  (self.(step_inputs) = None \/ self.(step_inputs) = Some []
   \/ truthy_str self.(step_output_name) = false
   \/ exists ins, self.(step_inputs) = Some ins /\ fst (classify_inputs ins [] []) = []) ->
  get_pipefunc_mapspec self = Ok None.
Proof.
  intros Hopt Hskip.
  assert (He : explicit_mapspec self = None).
  { unfold explicit_mapspec. destruct Hopt as [-> | (o & -> & Hm)]; [reflexivity|].
    rewrite Hm. reflexivity. }
  unfold get_pipefunc_mapspec. rewrite He.
  destruct Hskip as [H | [H | [H | (ins & H & Hc)]]].
  - rewrite H. reflexivity.
  - rewrite H. reflexivity.
  - destruct (step_inputs self) as [[|x ins]|]; try reflexivity.
    rewrite H. reflexivity.
  - rewrite H. destruct ins as [|x ins]; [reflexivity|].
    destruct (truthy_str (step_output_name self)); [|reflexivity].
    cbv [negb]. cbv zeta. rewrite Hc. reflexivity.
Qed.

Lemma prefix_contains_dot (p s : string) :
  String.prefix p s = true -> contains_dot p = true -> contains_dot s = true.
Proof.
  revert s. induction p as [|a p IH]; intros s Hp Hd; [discriminate Hd|].
  destruct s as [|b s]; [discriminate Hp|].
  simpl in Hp. destruct (Ascii.ascii_dec a b) as [<-|]; [|discriminate Hp].
  simpl in Hd |- *. destruct (Ascii.eqb a "."); [reflexivity|].
  exact (IH s Hp Hd).
Qed.

Lemma prefix_global_contains_dot (s : string) :
  String.prefix "$global." s = true -> contains_dot s = true.
Proof. intros H. exact (prefix_contains_dot "$global." s H eq_refl). Qed.

Lemma classify_inputs_spec (ins : PyDict.t step_input) (it : PyDict.t string) (consts : list string) :
  NoDup (PyDict.keys ins) ->
  (forall x, PyDict.get (fst (classify_inputs ins it consts)) x =
     match PyDict.get ins x with
     | Some (SIStr s) => if contains_dot s then Some (after_first_dot s) else PyDict.get it x
     | _ => PyDict.get it x
     end)
  /\ snd (classify_inputs ins it consts)
     = (consts ++ map fst (filter (fun kv => match iterable_source (snd kv) with
                                             | Some _ => false | None => true end) ins))%list.
Proof.
  revert it consts. induction ins as [|[n v] ins IH]; intros it consts Hnd.
  - simpl. rewrite app_nil_r. split; reflexivity.
  - inversion Hnd as [|? ? Hn Hnd']; subst. simpl.
    assert (Hsrc : iterable_source v =
              match v with
              | SIStr s => if contains_dot s then Some (after_first_dot s) else None
              | _ => None
              end).
    { destruct v as [i|s|z|f]; try reflexivity. simpl.
      destruct (String.prefix "$global." s) eqn:Ep; simpl; [|reflexivity].
      rewrite (prefix_global_contains_dot s Ep). reflexivity. }
    destruct (iterable_source v) as [src|] eqn:Ev.
    + destruct (IH (PyDict.set it n src) consts Hnd') as [Hg Hc].
      split; [|exact Hc].
      intros x. rewrite Hg. rewrite get_set.
      destruct (String.eqb x n) eqn:Ex.
      * apply String.eqb_eq in Ex. subst x. rewrite (get_not_in ins n Hn).
        destruct v as [i|s|z|f]; try discriminate. destruct (contains_dot s); congruence.
      * reflexivity.
    + destruct (IH it (consts ++ [n])%list Hnd') as [Hg Hc].
      split; [|rewrite Hc, <- app_assoc; reflexivity].
      intros x. rewrite Hg.
      destruct (String.eqb x n) eqn:Ex; [|reflexivity].
      apply String.eqb_eq in Ex. subst x. rewrite (get_not_in ins n Hn).
      destruct v as [i|s|z|f]; try reflexivity.
      destruct (contains_dot s); [discriminate|reflexivity].
Qed.

(** The schema synthesizer treats a string input as iterable exactly when
    it contains a dot (the [$global.] test adds nothing), with the text
    after the first dot as its source; every other input is a constant,
    kept in input order. *)
Lemma schema_classify_inputs (ins : PyDict.t step_input) :
  NoDup (PyDict.keys ins) ->
  (forall x, PyDict.get (fst (classify_inputs ins [] [])) x =
     match PyDict.get ins x with
     | Some (SIStr s) => if contains_dot s then Some (after_first_dot s) else None
     | _ => None
     end)
  /\ snd (classify_inputs ins [] [])
     = map fst (filter (fun kv => match snd kv with
                                  | SIStr s => negb (contains_dot s)
                                  | _ => true
                                  end) ins).
Proof.
  intros Hnd. destruct (classify_inputs_spec ins [] [] Hnd) as [Hg Hc].
  split; [exact Hg|]. rewrite Hc. simpl. f_equal.
  apply filter_ext. intros [n v]. simpl.
  destruct v as [i|s|z|f]; try reflexivity. simpl.
  destruct (String.prefix "$global." s) eqn:Ep.
  - rewrite (prefix_global_contains_dot s Ep). reflexivity.
  - simpl. destruct (contains_dot s); reflexivity.
Qed.

(** ** Input resolution with scoped defaults *)

Lemma apply_global_defaults_ok_all (sc : option string) (gs : PyDict.t input_spec)
    (acc R : PyDict.t pyval) :
  apply_global_defaults sc gs acc = Ok R ->
  forall n sp, In (n, sp) gs -> is_ok (global_default sp) = true.
Proof.
  revert acc. induction gs as [|[n sp] gs IH]; intros acc H n' sp' Hin; [destruct Hin|].
  simpl in H. destruct (global_default sp) as [v|e] eqn:Eg; simpl in H; [|discriminate].
  destruct Hin as [Heq|Hin].
  - inversion Heq; subst. rewrite Eg. reflexivity.
  - exact (IH _ H n' sp' Hin).
Qed.

Lemma apply_global_defaults_spec (sc : option string) (gs : PyDict.t input_spec)
    (acc R : PyDict.t pyval) :
  NoDup (map (scoped_key sc) (PyDict.keys gs)) ->
  apply_global_defaults sc gs acc = Ok R ->
  (forall n sp, In (n, sp) gs ->
     exists v, global_default sp = Ok v /\ PyDict.get R (scoped_key sc n) = Some v)
  /\ (forall k, ~ In k (map (scoped_key sc) (PyDict.keys gs)) -> PyDict.get R k = PyDict.get acc k).
Proof.
  revert acc. induction gs as [|[n sp] gs IH]; intros acc Hnd H.
  - simpl in H. injection H as <-. split; [intros ? ? []|reflexivity].
  - simpl in Hnd. inversion Hnd as [|? ? Hn Hnd']; subst.
    simpl in H. destruct (global_default sp) as [v|e] eqn:Eg; simpl in H; [|discriminate].
    destruct (IH _ Hnd' H) as [Hin Hout]. split.
    + intros n' sp' [Heq|Hi].
      * inversion Heq; subst. exists v. split; [exact Eg|].
        rewrite (Hout _ Hn), get_set, String.eqb_refl. reflexivity.
      * exact (Hin n' sp' Hi).
    + intros k Hk. rewrite Hout by (intros Hi; apply Hk; right; exact Hi).
      rewrite get_set. destruct (String.eqb k (scoped_key sc n)) eqn:E; [|reflexivity].
      apply String.eqb_eq in E. exfalso. apply Hk. left. symmetry. exact E.
Qed.

(** A successful resolution gives the pipeline, for each input it lists,
    the user's value if any, else the workflow default stored under the
    scoped name [{scope}.{name}]; a name that is no scoped default name
    comes from the user alone. *)
Lemma resolve_scoped_defaults (user : PyDict.t pyval) (workflow_model : WorkflowDefinition)
    (pipeline_inputs required : list string) (m : PyDict.t pyval) (gs : PyDict.t input_spec) :
  let sc := match workflow_model.(spec).(spec_options) with Some o => o.(wf_scope) | None => None end in
  workflow_model.(spec).(spec_inputs) = Some gs ->
  NoDup (map (scoped_key sc) (PyDict.keys gs)) -> NoDup (PyDict.keys user) ->
  InputResolver_resolve user workflow_model pipeline_inputs required = Ok m ->
  (forall n sp, In (n, sp) gs ->
     exists v, global_default sp = Ok v /\
       PyDict.get m (scoped_key sc n) =
       if str_mem (scoped_key sc n) pipeline_inputs
       then match PyDict.get user (scoped_key sc n) with Some u => Some u | None => Some v end
       else None)
  /\ (forall k, ~ In k (map (scoped_key sc) (PyDict.keys gs)) ->
       PyDict.get m k = if str_mem k pipeline_inputs then PyDict.get user k else None).
Proof.
  intros sc Hgs Hnd Hndu Hres. rewrite InputResolver_resolve_unfold in Hres.
  destruct (resolved_globals workflow_model) as [R|e] eqn:ER; simpl in Hres; [|discriminate].
  assert (HR2 : apply_global_defaults sc gs [] = Ok R).
  { unfold resolved_globals in ER. rewrite Hgs in ER. fold sc in ER.
    destruct gs; [exact ER|exact ER]. }
  destruct (missing_inputs required (PyDict.update R user)); [|discriminate].
  injection Hres as <-.
  destruct (apply_global_defaults_spec sc gs [] R Hnd HR2) as [Hin Hout].
  split.
  - intros n sp Hi. destruct (Hin n sp Hi) as [v [Hv HRv]]. exists v. split; [exact Hv|].
    rewrite get_filter_keys. destruct (str_mem _ pipeline_inputs); [|reflexivity].
    rewrite get_update by exact Hndu. rewrite HRv. reflexivity.
  - intros k Hk. rewrite get_filter_keys. destruct (str_mem k pipeline_inputs); [|reflexivity].
    rewrite get_update by exact Hndu. rewrite (Hout k Hk). simpl.
    destruct (PyDict.get user k); reflexivity.
Qed.

Lemma apply_global_defaults_bad (sc : option string) (gs : PyDict.t input_spec)
    (acc : PyDict.t pyval) :
  (exists n sp, In (n, sp) gs /\ is_ok (global_default sp) = false) ->
  exists msg, apply_global_defaults sc gs acc = Raise (PyExc "AttributeError" msg).
Proof.
  revert acc. induction gs as [|[n sp] gs IH]; intros acc (n' & sp' & Hin & Hbad); [destruct Hin|].
  simpl. destruct (global_default sp) as [v|e] eqn:Eg; simpl.
  - apply IH. destruct Hin as [Heq|Hin].
    + inversion Heq; subst. rewrite Eg in Hbad. discriminate.
    + exists n', sp'. split; assumption.
  - unfold global_default in Eg. destruct sp as [it|s].
    + destruct (item_value it); try discriminate; injection Eg as <-; eexists; reflexivity.
    + injection Eg as <-. eexists. reflexivity.
Qed.

(** One workflow default given in the [str] shorthand, or as an item whose
    value is a dict, makes every resolution raise AttributeError, whatever
    the user inputs. *)
Lemma resolve_bad_default_raises (user : PyDict.t pyval) (workflow_model : WorkflowDefinition)
    (pipeline_inputs required : list string) (gs : PyDict.t input_spec) (n : string) (sp : input_spec) :
  workflow_model.(spec).(spec_inputs) = Some gs -> In (n, sp) gs ->
  (match sp with
   | ISStr _ => True
   | ISItem it => match it.(item_value) with PDict _ => True | _ => False end
   end) ->
  exists msg, InputResolver_resolve user workflow_model pipeline_inputs required
              = Raise (PyExc "AttributeError" msg).
Proof.
  intros Hgs Hin Hsp. rewrite InputResolver_resolve_unfold. unfold resolved_globals.
  rewrite Hgs.
  destruct gs as [|g gs]; [destruct Hin|].
  destruct (apply_global_defaults_bad
              (match spec_options (spec workflow_model) with Some o => wf_scope o | None => None end)
              (g :: gs) []) as [msg Hmsg].
  { exists n, sp. split; [exact Hin|].
    destruct sp as [it|s]; [|reflexivity]. simpl.
    destruct (item_value it); try contradiction; reflexivity. }
  exists msg. rewrite Hmsg. reflexivity.
Qed.

(** ** Output persistence: where it can fail *)

(** [persist] raises only when outputs are declared, the base output
    directory is missing and cannot be created; per-output failures are
    logged, never raised. *)
Lemma persist_raises_only_on_base_dir (io : PersistIO) (results : PyDict.t PipeResult)
    (workflow_model : WorkflowDefinition) (output_dir : string) (e : py_exc) :
  OutputPersister_persist io results workflow_model output_dir = Raise e <->
  (exists declared e0,
     workflow_model.(spec).(spec_outputs) = Some declared /\ declared <> []
     /\ io.(io_dir_exists) output_dir = false /\ io.(io_mkdir) output_dir = Raise e0
     /\ e = PyExc "OutputPersisterError"
              ("Could not create base output directory " ++ output_dir ++ ": " ++ e0.(exc_msg))).
Proof.
  unfold OutputPersister_persist. split.
  - destruct (spec_outputs (spec workflow_model)) as [[|d declared]|]; try discriminate.
    destruct (io_dir_exists io output_dir) eqn:Ed; simpl; [discriminate|].
    destruct (io_mkdir io output_dir) as [u|e0] eqn:Em; simpl; [discriminate|].
    intros H. injection H as <-. exists (d :: declared), e0. repeat split; try assumption.
    discriminate.
  - intros (declared & e0 & Hd & Hne & He & Hm & ->). rewrite Hd.
    destruct declared as [|d declared]; [contradiction|].
    rewrite He, Hm. reflexivity.
Qed.

(** [_prepare_data_for_serialization] leaves every plain value (none of
    numpy's types) unchanged, nested lists and dicts included, keys and
    order preserved. *)
Lemma prepare_data_plain (v : pyval) : prepare_data v = v.
Proof.
  revert v. fix IH 1. intros [| b | z | s | l | kvs]; simpl; try reflexivity.
  - f_equal. revert l. fix IHl 1. intros [|x l]; simpl; [reflexivity|].
    rewrite (IH x), (IHl l). reflexivity.
  - f_equal. revert kvs. fix IHk 1. intros [|[k x] kvs]; simpl; [reflexivity|].
    rewrite (IH x), (IHk kvs). reflexivity.
Qed.

(** ** Jinja helpers *)

Lemma py_contains_cons (pat : string) (c : ascii) (rest : string) :
  py_contains pat (String c rest) = String.prefix pat (String c rest) || py_contains pat rest.
Proof. reflexivity. Qed.

Lemma count_fuel_contains (f : nat) (pat s : string) :
  count_fuel f pat s <> 0 -> py_contains pat s = true.
Proof.
  revert s. induction f as [|f IH]; intros s H; simpl in H; [contradiction|].
  destruct s as [|c rest]; [contradiction|].
  rewrite py_contains_cons.
  destruct (String.prefix pat (String c rest)) eqn:Ep; [reflexivity|].
  exact (IH rest H).
Qed.

Lemma lstrip_ws_contains (pat s : string) :
  py_contains pat (lstrip_ws s) = true -> py_contains pat s = true.
Proof.
  induction s as [|c rest IH]; cbn [lstrip_ws]; [tauto|].
  destruct (py_isspace c); [|tauto].
  intros H. rewrite py_contains_cons, (IH H). apply Bool.orb_true_r.
Qed.

Lemma prefix_app (pat t u : string) :
  String.prefix pat t = true -> String.prefix pat (t ++ u) = true.
Proof.
  revert t. induction pat as [|a pat IH]; intros t H; [destruct (t ++ u); reflexivity|].
  destruct t as [|b t]; [discriminate H|].
  simpl in H |- *. destruct (Ascii.ascii_dec a b); [exact (IH t H)|discriminate H].
Qed.

Lemma contains_app (pat t u : string) :
  py_contains pat t = true -> py_contains pat (t ++ u) = true.
Proof.
  induction t as [|c t IH]; intros H.
  - simpl in H. rewrite Bool.orb_false_r in H.
    destruct pat; [|discriminate H]. destruct u; reflexivity.
  - rewrite py_contains_cons in H. change (String c t ++ u) with (String c (t ++ u)).
    rewrite py_contains_cons. apply Bool.orb_true_iff in H as [H|H].
    + apply Bool.orb_true_iff. left. exact (prefix_app pat (String c t) u H).
    + rewrite (IH H). apply Bool.orb_true_r.
Qed.

Lemma rstrip_ws_prefix (s : string) : exists u, s = rstrip_ws s ++ u.
Proof.
  induction s as [|c rest [u IH]]; [exists EmptyString; reflexivity|].
  simpl. destruct (rstrip_ws rest) as [|c' r] eqn:Er.
  - destruct (py_isspace c); [exists (String c rest); reflexivity|].
    exists rest. reflexivity.
  - exists u. simpl. rewrite IH at 1. reflexivity.
Qed.

(** A direct Jinja reference is always a Jinja template. *)
Lemma direct_jinja_reference_is_template (value : pyval) :
  is_direct_jinja_reference value = true -> is_jinja_template value = true.
Proof.
  destruct value as [| b | z | v | l | kvs]; simpl; try discriminate.
  intros H. apply Bool.andb_true_iff in H as [Ho H].
  apply Bool.andb_true_iff in H as [Hc _].
  unfold id in Ho, Hc. apply Nat.eqb_eq in Ho, Hc.
  assert (Hs : forall pat, py_contains pat (py_strip v) = true -> py_contains pat v = true).
  { intros pat Hp. apply lstrip_ws_contains.
    destruct (rstrip_ws_prefix (lstrip_ws v)) as [u Hu].
    rewrite Hu. apply contains_app. exact Hp. }
  unfold py_count in Ho, Hc.
  rewrite (Hs _ (count_fuel_contains _ _ _ ltac:(rewrite Ho; discriminate))).
  rewrite (Hs _ (count_fuel_contains _ _ _ ltac:(rewrite Hc; discriminate))).
  reflexivity.
Qed.

(** ** Concrete runs of the properties above *)

Definition etl_workflow : WorkflowDefinition :=
  mkWorkflow "etl" (mkWorkflowSpec None None None None []).

Definition run_services (build : outcome Pipeline) (map_result : outcome (PyDict.t pyval))
    (write_ok : bool) : RunServices :=
  mkServices (Ok etl_workflow) (fun name r => Ok ("/runs/" ++ name ++ "/" ++ r))
    (fun _ => build) (Ok [])
    (fun _ _ => map_result)
    (fun _ _ dir => Ok [("y", dir ++ "/y.json")]) (fun _ => write_ok).

Lemma execute_started_run_saves_summary_witness :
  let '(files', evs, out) :=
    execute_workflow (run_services (Raise (PyExc "PipelineBuildError" "no such step")) (Ok []) true)
      "r1" None false [] in
  exists s,
    PyDict.get files' ("/runs/etl/r1" ++ "/summary.json") = Some s
    /\ s.(run_id) = "r1" /\ s.(end_time_set) = true
    /\ ((s.(status) = FAILED
         /\ out = Raise (PyExc "WorkflowRunError" ("Run '" ++ "r1" ++ "' failed."))
         /\ evs = [SummarySaved ("/runs/etl/r1" ++ "/summary.json");
                   RunRaised (PyExc "WorkflowRunError" ("Run '" ++ "r1" ++ "' failed."))])
        \/ (s.(status) = SUCCESS /\ out = Ok (Some s)
            /\ evs = [SummarySaved ("/runs/etl/r1" ++ "/summary.json"); RunReturned])).
Proof.
  apply (execute_started_run_saves_summary
           (run_services (Raise (PyExc "PipelineBuildError" "no such step")) (Ok []) true)
           "r1" None false [] etl_workflow "/runs/etl/r1"); reflexivity.
Defined.

Lemma execute_summary_save_failure_swallowed_witness :
  let '(files', evs, out) :=
    execute_workflow (run_services (Ok (mkPipeline [] [])) (Ok []) false) "r2" None false [] in
  files' = []
  /\ exists e_sum,
       (out = Raise (PyExc "WorkflowRunError" ("Run '" ++ "r2" ++ "' failed."))
        /\ evs = [SummarySaveFailed e_sum;
                  RunRaised (PyExc "WorkflowRunError" ("Run '" ++ "r2" ++ "' failed."))])
       \/ (exists s, out = Ok (Some s) /\ s.(status) = SUCCESS
                     /\ evs = [SummarySaveFailed e_sum; RunReturned]).
Proof.
  apply (execute_summary_save_failure_swallowed
           (run_services (Ok (mkPipeline [] [])) (Ok []) false)
           "r2" None false [] etl_workflow "/runs/etl/r2"); reflexivity.
Defined.

Definition unloadable_services : RunServices :=
  mkServices (Raise (PyExc "WorkflowDefinitionError" "invalid workflow file"))
    (fun _ _ => Ok "/runs") (fun _ => Ok (mkPipeline [] [])) (Ok [])
    (fun _ _ => Ok []) (fun _ _ _ => Ok []) (fun _ => true).

Lemma execute_early_failure_no_summary_witness :
  execute_workflow unloadable_services "r3" None false []
  = ([], [NoSummaryToSave;
          RunRaised (PyExc "AttributeError" "'NoneType' object has no attribute 'start_time'")],
     Raise (PyExc "AttributeError" "'NoneType' object has no attribute 'start_time'")).
Proof.
  apply (execute_early_failure_no_summary unloadable_services "r3" None false []
           (PyExc "WorkflowDefinitionError" "invalid workflow file")).
  left. reflexivity.
Defined.

Lemma execute_success_summary_witness :
  let s := mkSummary "r4" "etl" SUCCESS true [("x", PInt 1)] [] [("y", "/runs/etl/r4/outputs/y.json")]
             "/runs/etl/r4" None in
  execute_workflow (run_services (Ok (mkPipeline [] [])) (Ok [("y", PInt 2)]) true)
    "r4" (Some [("x", PInt 1)]) false []
  = (PyDict.set [] ("/runs/etl/r4" ++ "/summary.json") s,
     [SummarySaved ("/runs/etl/r4" ++ "/summary.json"); RunReturned], Ok (Some s)).
Proof.
  apply (execute_success_summary (run_services (Ok (mkPipeline [] [])) (Ok [("y", PInt 2)]) true)
           "r4" (Some [("x", PInt 1)]) false [] etl_workflow "/runs/etl/r4" (mkPipeline [] [])
           [("x", PInt 1)] [] [("y", PInt 2)] [("y", "/runs/etl/r4/outputs/y.json")]);
    reflexivity.
Defined.

Definition permissive_env : BuildEnv :=
  mkBuildEnv (fun _ => true) (fun _ => true) (fun _ => true).

Definition clean_step : StepDefinition :=
  mkStep "clean" None
    (Some [("data", SIStr "$global.raw"); ("mode", SIStr "fast"); ("other", SIStr "$global.other")])
    (Some [("n", PInt 5); ("k", PInt 1)]) (Some "cleaned") None
    (Some (mkStepOptions (Some (OutStr "cleaned_data")) (Some [("data", "old"); ("z", "zz")])
             (Some [("n", PInt 7)]) None None None None None None None None)).

Definition clean_workflow : WorkflowDefinition :=
  mkWorkflow "clean" (mkWorkflowSpec (Some "pkg.steps") None None None [clean_step]).

Lemma build_step_output_and_mapspec_from_options_witness :
  exists fo, create_pipe_func_from_step permissive_env clean_step clean_workflow = Ok fo
  /\ fo.(fo_output_name) = Some (OutStr "cleaned_data") /\ fo.(fo_mapspec) = None
  /\ exists p, function_path clean_step clean_workflow = Ok p /\ fo.(fo_func) = Some p.
Proof.
  eexists. split; [reflexivity|].
  apply (build_step_output_and_mapspec_from_options permissive_env clean_step clean_workflow).
  reflexivity.
Defined.

Lemma build_step_option_defaults_win_witness :
  exists fo, create_pipe_func_from_step permissive_env clean_step clean_workflow = Ok fo
  /\ (match fo.(fo_defaults) with Some d => PyDict.get d "n" | None => None end) = Some (PInt 7)
  /\ (match fo.(fo_defaults) with Some d => PyDict.get d "k" | None => None end) = Some (PInt 1).
Proof.
  eexists. split; [reflexivity|]. split.
  - apply (build_step_option_defaults_win permissive_env clean_step clean_workflow _ "n").
    reflexivity.
  - apply (build_step_option_defaults_win permissive_env clean_step clean_workflow _ "k").
    reflexivity.
Defined.

Lemma build_step_global_renames_witness :
  exists fo, create_pipe_func_from_step permissive_env clean_step clean_workflow = Ok fo
  /\ (match fo.(fo_renames) with Some r => PyDict.get r "data" | None => None end) = Some "raw"
  /\ (match fo.(fo_renames) with Some r => PyDict.get r "other" | None => None end) = None
  /\ (match fo.(fo_renames) with Some r => PyDict.get r "z" | None => None end) = Some "zz".
Proof.
  assert (Hnd : NoDup (PyDict.keys [("data", SIStr "$global.raw"); ("mode", SIStr "fast");
                                     ("other", SIStr "$global.other")])).
  { repeat (apply NoDup_cons; [simpl; intuition discriminate|]). apply NoDup_nil. }
  eexists. split; [reflexivity|]. split; [|split].
  - pose proof (build_step_global_renames permissive_env clean_step clean_workflow _ _ "data"
                  eq_refl eq_refl Hnd) as Hx.
    cbv zeta in Hx. rewrite Hx. reflexivity.
  - pose proof (build_step_global_renames permissive_env clean_step clean_workflow _ _ "other"
                  eq_refl eq_refl Hnd) as Hx.
    cbv zeta in Hx. rewrite Hx. reflexivity.
  - pose proof (build_step_global_renames permissive_env clean_step clean_workflow _ _ "z"
                  eq_refl eq_refl Hnd) as Hx.
    cbv zeta in Hx. rewrite Hx. reflexivity.
Defined.

Definition numeric_input_step : StepDefinition :=
  mkStep "scale" (Some "pkg.steps.scale") (Some [("data", SIStr "$global.raw"); ("factor", SIInt 2)])
    None None None None.

Lemma build_step_non_string_input_fails_witness :
  exists msg, create_pipe_func_from_step permissive_env numeric_input_step clean_workflow
    = Raise (PyExc "PipelineBuildError"
               ("Error applying step option resolver 'resolve_input_renames' for step '"
                ++ "scale" ++ "': " ++ msg)).
Proof.
  apply (build_step_non_string_input_fails permissive_env numeric_input_step clean_workflow
           "pkg.steps.scale" [("data", SIStr "$global.raw"); ("factor", SIInt 2)]);
    [reflexivity|reflexivity|reflexivity|].
  exists "factor", (SIInt 2). split; [right; left; reflexivity|discriminate].
Defined.

Definition unnamed_func_step : StepDefinition :=
  mkStep "orphan" None None None None None None.

Definition plain_func_step (name : string) : StepDefinition :=
  mkStep name (Some ("pkg." ++ name)) None None None None
    (Some (mkStepOptions (Some (OutStr (name ++ "_out"))) None None None None None
             None None None None None)).

Definition three_step_workflow : WorkflowDefinition :=
  mkWorkflow "three" (mkWorkflowSpec None None None None
                        [plain_func_step "load"; unnamed_func_step; plain_func_step "save"]).

Lemma build_steps_first_failure_witness :
  exists e, build_steps permissive_env three_step_workflow
              [plain_func_step "load"; unnamed_func_step; plain_func_step "save"]
    = ([StepOptionsCreated "load"; StepOptionsCreated "orphan"], Raise e).
Proof.
  eexists.
  apply (build_steps_first_failure permissive_env three_step_workflow
           [plain_func_step "load"] unnamed_func_step [plain_func_step "save"]).
  - intros s [<-|[]]. eexists. reflexivity.
  - reflexivity.
Defined.

Definition broadcast_options3 : StepOptions :=
  mkStepOptions None None None None None (Some BROADCAST) None None None None None.

Lemma schema_broadcast_mapspec_witness :
  get_pipefunc_mapspec
    (gstep [("a", SIStr "$global.xs"); ("b", SIStr "load.ys"); ("c", SIInt 3)] (Some "out") BROADCAST)
  = Ok (Some "xs[i], ys[j], c -> out[i,j]").
Proof.
  etransitivity.
  - apply (schema_broadcast_mapspec
             (gstep [("a", SIStr "$global.xs"); ("b", SIStr "load.ys"); ("c", SIInt 3)]
                (Some "out") BROADCAST)
             [("a", SIStr "$global.xs"); ("b", SIStr "load.ys"); ("c", SIInt 3)] "out"
             broadcast_options3); try reflexivity.
    + discriminate.
    + simpl. lia.
  - reflexivity.
Defined.

Definition many_inputs : PyDict.t step_input :=
  map (fun k => (String (ascii_of_nat (65 + k)) EmptyString,
                 SIStr ("$global.s" ++ String (ascii_of_nat (65 + k)) EmptyString))) (seq 0 19).

Lemma schema_broadcast_overflow_witness :
  get_pipefunc_mapspec (gstep many_inputs (Some "out") BROADCAST)
  = Raise (PyExc "PipelineBuildError" "Too many iterable inputs for `broadcast`.").
Proof.
  apply (schema_broadcast_overflow (gstep many_inputs (Some "out") BROADCAST) many_inputs "out"
           broadcast_options3); try reflexivity.
  - discriminate.
  - vm_compute. lia.
Defined.

Definition zip_options : StepOptions := mkStepOptions None None None None None (Some ZIP) None None None None None.

Lemma schema_zip_mapspec_witness :
  get_pipefunc_mapspec
    (gstep [("a", SIStr "$global.xs"); ("b", SIStr "load.ys"); ("c", SIInt 3)] (Some "out") ZIP)
  = Ok (Some "xs[i], ys[i], c -> out[i]").
Proof.
  etransitivity.
  - apply (schema_zip_mapspec
             (gstep [("a", SIStr "$global.xs"); ("b", SIStr "load.ys"); ("c", SIInt 3)] (Some "out") ZIP)
             [("a", SIStr "$global.xs"); ("b", SIStr "load.ys"); ("c", SIInt 3)] "out" zip_options);
      try reflexivity; discriminate.
  - reflexivity.
Defined.

Definition aggregate_options3 : StepOptions :=
  mkStepOptions None None None None None (Some AGGREGATE) None None None None None.

Lemma schema_aggregate_mapspec_witness :
  get_pipefunc_mapspec (gstep [("rows", SIStr "load.rows"); ("sep", SIStr ",")] (Some "total") AGGREGATE)
  = Ok (Some "rows[i], sep -> total").
Proof.
  etransitivity.
  - apply (schema_aggregate_mapspec
             (gstep [("rows", SIStr "load.rows"); ("sep", SIStr ",")] (Some "total") AGGREGATE)
             [("rows", SIStr "load.rows"); ("sep", SIStr ",")] "total" aggregate_options3);
      try reflexivity; discriminate.
  - reflexivity.
Defined.

Lemma schema_mapspec_skipped_witness :
  get_pipefunc_mapspec (gstep [("n", SIInt 3); ("label", SIStr "plain")] (Some "out") BROADCAST)
  = Ok None.
Proof.
  apply schema_mapspec_skipped.
  - right. exists broadcast_options3. split; reflexivity.
  - right. right. right. exists [("n", SIInt 3); ("label", SIStr "plain")]. split; reflexivity.
Defined.

Lemma schema_classify_inputs_witness :
  PyDict.get (fst (classify_inputs [("file", SIStr "data.csv"); ("n", SIInt 1)] [] [])) "file"
    = Some "csv"
  /\ snd (classify_inputs [("file", SIStr "data.csv"); ("n", SIInt 1)] [] []) = ["n"].
Proof.
  assert (Hnd : NoDup (PyDict.keys [("file", SIStr "data.csv"); ("n", SIInt 1)])).
  { repeat (apply NoDup_cons; [simpl; intuition discriminate|]). apply NoDup_nil. }
  destruct (schema_classify_inputs [("file", SIStr "data.csv"); ("n", SIInt 1)] Hnd) as [Hg Hc].
  split; [rewrite Hg|rewrite Hc]; reflexivity.
Defined.

Lemma resolve_mapspec_attribute_error_witness :
  exists msg, resolve_mapspec broadcast_options3
                (gstep [("a", SIStr "$global.xs")] (Some "out") BROADCAST)
              = Raise (PyExc "AttributeError" msg).
Proof. apply resolve_mapspec_attribute_error. reflexivity. Defined.

Definition scoped_workflow : WorkflowDefinition :=
  mkWorkflow "scoped"
    (mkWorkflowSpec None (Some (mkWSOptions None (Some "etl")))
       (Some [("rate", ISItem (mkInputItem (PInt 3))); ("limit", ISItem (mkInputItem (PInt 10)))])
       None []).

Lemma resolve_scoped_defaults_witness :
  exists m,
    InputResolver_resolve [("etl.limit", PInt 20); ("rate", PInt 4)] scoped_workflow
      ["etl.rate"; "etl.limit"; "rate"] [] = Ok m
    /\ PyDict.get m "etl.rate" = Some (PInt 3)
    /\ PyDict.get m "etl.limit" = Some (PInt 20)
    /\ PyDict.get m "rate" = Some (PInt 4).
Proof.
  assert (Hnd : NoDup (map (scoped_key (Some "etl")) ["rate"; "limit"])).
  { repeat (apply NoDup_cons; [simpl; intuition discriminate|]). apply NoDup_nil. }
  assert (Hndu : NoDup (PyDict.keys [("etl.limit", PInt 20); ("rate", PInt 4)])).
  { repeat (apply NoDup_cons; [simpl; intuition discriminate|]). apply NoDup_nil. }
  eexists. split; [reflexivity|].
  destruct (resolve_scoped_defaults [("etl.limit", PInt 20); ("rate", PInt 4)] scoped_workflow
              ["etl.rate"; "etl.limit"; "rate"] [] _
              [("rate", ISItem (mkInputItem (PInt 3))); ("limit", ISItem (mkInputItem (PInt 10)))]
              eq_refl Hnd Hndu eq_refl) as [Hin Hout].
  split; [|split].
  - destruct (Hin "rate" _ (or_introl eq_refl)) as [v [Hv Hg]].
    etransitivity; [exact Hg|]. cbn in Hv. injection Hv as <-. reflexivity.
  - destruct (Hin "limit" _ (or_intror (or_introl eq_refl))) as [v [Hv Hg]].
    etransitivity; [exact Hg|]. reflexivity.
  - etransitivity; [apply Hout|reflexivity]. simpl. intuition discriminate.
Defined.

Lemma resolve_missing_listed_witness :
  exists e,
    InputResolver_resolve [] scoped_workflow ["etl.rate"; "seed"] ["etl.rate"; "seed"] = Raise e
    /\ e = PyExc "InputResolverError"
             (missing_message "scoped" ["seed"] ["etl.rate"; "etl.limit"])
    /\ ["seed"] <> []
    /\ (forall r, In r ["seed"] <-> In r ["etl.rate"; "seed"]
                  /\ PyDict.mem r [("etl.rate", PInt 3); ("etl.limit", PInt 10)] = false).
Proof.
  eexists. split; [reflexivity|].
  apply (resolve_missing_listed [] scoped_workflow ["etl.rate"; "seed"] ["etl.rate"; "seed"]
           [("etl.rate", PInt 3); ("etl.limit", PInt 10)]); reflexivity.
Defined.

Definition shorthand_workflow : WorkflowDefinition :=
  mkWorkflow "short" (mkWorkflowSpec None None
                        (Some [("rate", ISItem (mkInputItem (PInt 3))); ("path", ISStr "in.csv")])
                        None []).

Lemma resolve_bad_default_raises_witness :
  exists msg, InputResolver_resolve [("path", PStr "other.csv")] shorthand_workflow ["path"] []
              = Raise (PyExc "AttributeError" msg).
Proof.
  apply (resolve_bad_default_raises [("path", PStr "other.csv")] shorthand_workflow ["path"] []
           [("rate", ISItem (mkInputItem (PInt 3))); ("path", ISStr "in.csv")] "path" (ISStr "in.csv"));
    [reflexivity|right; left; reflexivity|exact I].
Defined.

Lemma generate_unique_id_default_shape_witness :
  exists id, generate_unique_id None (mkDatetime 2026 10 15 9 30 0) "3f2a9c0b1d2e4f5a6b7c8d9e0f1a2b3c"
             = Ok id /\ run_id_shape "run" id.
Proof. apply generate_unique_id_default_shape; [simpl; lia|reflexivity]. Defined.

Lemma direct_jinja_reference_is_template_witness :
  is_jinja_template (PStr "  {{ steps.load.outputs.rows }} ") = true.
Proof. apply direct_jinja_reference_is_template. reflexivity. Defined.

Definition default_options_step : StepDefinition :=
  mkStep "clean" (Some "pkg.steps.clean") None None None None
    (Some (mkStepOptions (Some (OutStr "cleaned_data")) None None None None (Some BROADCAST)
             None None None None None)).

Lemma build_step_rejected_by_pipefunc_signature_witness :
  exists msg, create_pipe_func_from_step permissive_env default_options_step clean_workflow
              = Raise (PyExc "PipelineBuildError" msg).
Proof.
  apply build_step_rejected_by_pipefunc_signature.
  right. exists (mkStepOptions (Some (OutStr "cleaned_data")) None None None None (Some BROADCAST)
                   None None None None None).
  split; [reflexivity|left; discriminate].
Defined.
